(** * rockauto_s3: a price-scraping batch job

    Shallow embedding of [rockauto_s3.py] and the properties of its
    pipeline: reset the four CSV objects, read the part numbers from the
    warehouse, look every part up on the retail site, classify the
    outcome, write the CSV objects. *)

From Stdlib Require Import Ascii String.
From stdpp Require Import base strings list gmap pretty.

Local Open Scope string_scope.
Local Open Scope list_scope.

(** ** Regular expressions, as far as the program uses them

    The program has one pattern, [\d+(\.\d+)?], handed to [re.search]
    twice.  The fragment of the pattern language it needs: a one-character
    atom, greedy [+] over an atom, sequence, and greedy [?].  Text is
    modelled over 8-bit characters, so [\d] is the class [0-9]. *)
Module Re.

Inductive atom : Type :=
| Digit                    (* \d *)
| Chr (c : ascii).         (* an escaped or plain literal *)

Inductive regex : Type :=
| Atom (a : atom)
| Plus (a : atom)          (* a+ , greedy *)
| Seq (r1 r2 : regex)
| Opt (r : regex).         (* (r)? , greedy *)

Definition is_digit (c : ascii) : bool :=
  let n := nat_of_ascii c in (48 <=? n)%nat && (n <=? 57)%nat.

Definition atom_ok (a : atom) (c : ascii) : bool :=
  match a with
  | Digit => is_digit c
  | Chr d => Ascii.eqb c d
  end.

(** The matcher lists all ways to match at the start of [s], as pairs
    (matched text, rest), in the order a backtracking matcher tries them:
    greedy operators try the longer alternative first. *)

(** One more character in front of a match. *)
Definition consume (c : ascii) (m : string * string) : string * string :=
  (String c m.1, m.2).

(** [a*], then [a+]. *)
Fixpoint star (a : atom) (s : string) : list (string * string) :=
  match s with
  | String c s' =>
      if atom_ok a c then map (consume c) (star a s') ++ [("", s)]
      else [("", s)]
  | EmptyString => [("", s)]
  end.

Definition plus (a : atom) (s : string) : list (string * string) :=
  match s with
  | String c s' => if atom_ok a c then map (consume c) (star a s') else []
  | EmptyString => []
  end.

Fixpoint run (r : regex) (s : string) : list (string * string) :=
  match r with
  | Atom a =>
      match s with
      | String c s' => if atom_ok a c then [(String c "", s')] else []
      | EmptyString => []
      end
  | Plus a => plus a s
  | Seq r1 r2 =>
      flat_map (fun m1 => map (fun m2 => (m1.1 +:+ m2.1, m2.2)) (run r2 m1.2))
               (run r1 s)
  | Opt r1 => run r1 s ++ [("", s)]
  end.

(** [re.match]: the first alternative at the start of the text. *)
Definition re_match (r : regex) (s : string) : option string :=
  match run r s with
  | m :: _ => Some m.1
  | [] => None
  end.

(** [re.search(r, s)] followed by [m.group()]: the leftmost position at
    which the pattern matches, and there the first alternative; [None]
    when no position matches. *)
Fixpoint search (r : regex) (s : string) : option string :=
  match re_match r s with
  | Some g => Some g
  | None =>
      match s with
      | String _ s' => search r s'
      | EmptyString => None
      end
  end.

(** [re.fullmatch]: some alternative consumes the whole text. *)
Definition fullmatch (r : regex) (s : string) : bool :=
  existsb (fun m => bool_decide (m.2 = "")) (run r s).

(** The longest run of [a] at the start of [s], and what follows it. *)
Fixpoint span (a : atom) (s : string) : string * string :=
  match s with
  | String c s' => if atom_ok a c then consume c (span a s') else ("", s)
  | EmptyString => ("", "")
  end.

Definition all_digits (s : string) : bool :=
  forallb is_digit (list_ascii_of_string s).

End Re.

(** The pattern of the price fetcher and of the cleaning step. *)
Definition price_pattern : Re.regex :=
  Re.Seq (Re.Plus Re.Digit)
         (Re.Opt (Re.Seq (Re.Atom (Re.Chr ".")) (Re.Plus Re.Digit))).

Definition re_search_price (s : string) : option string :=
  Re.search price_pattern s.

(** The first alternative of [price_pattern] at the start of a text, read
    off the text: the run of digits there, and the point with the run of
    digits behind it when there is one. *)
Definition price_prefix (s : string) : option (string * string) :=
  match s with
  | String c s' =>
      if Re.is_digit c then
        let m1 := Re.consume c (Re.span Re.Digit s') in
        match m1.2 with
        | String p (String c2 t) =>
            if Ascii.eqb p "." && Re.is_digit c2 then
              let m2 := Re.consume c2 (Re.span Re.Digit t) in
              Some (m1.1 +:+ String p m2.1, m2.2)
            else Some (m1.1 +:+ "", m1.2)
        | _ => Some (m1.1 +:+ "", m1.2)
        end
      else None
  | EmptyString => None
  end.

(** A decimal number as the pattern spells it: digits, or digits, a point
    and digits. *)
Inductive decimal_string : string -> Prop :=
| decimal_int d :
    d <> "" -> Re.all_digits d = true -> decimal_string d
| decimal_frac d1 d2 :
    d1 <> "" -> Re.all_digits d1 = true ->
    d2 <> "" -> Re.all_digits d2 = true ->
    decimal_string (d1 +:+ String "." d2).


(** ** Data model *)

(** A warehouse row, [{"vendor_part_number": .., "part_number": ..}]. *)
Record PartRecord : Type := mkPart {
  vendor_part_number : string;
  part_number : string
}.

(** A row of the price tables. *)
Record PriceRow : Type := mkPrice {
  SupplierPartNumber : string;
  Partnumber : string;
  Cost : string
}.

(** A row of the error logs. *)
Record ErrorRow : Type := mkError {
  VendorPartNumber : string;
  Error : string
}.

(** Rows are Python dicts; [items] lists a row's keys and values in
    insertion order, which is what [csv.DictWriter] reads. *)
Class Dict (A : Type) := items : A -> list (string * string).

#[global] Instance PriceRow_dict : Dict PriceRow := fun r =>
  [("SupplierPartNumber", SupplierPartNumber r);
   ("Partnumber", Partnumber r);
   ("Cost", Cost r)].

#[global] Instance ErrorRow_dict : Dict ErrorRow := fun r =>
  [("VendorPartNumber", VendorPartNumber r); ("Error", Error r)].

Definition BUCKET_NAME : string := "pdm-matillion-pipeline".
Definition multi_result_log_csv : string := "multi_result_error_log.csv".
Definition not_found_log_csv : string := "not_found_error_log.csv".
Definition output_csv_file : string := "part_numbers_with_prices.csv".
Definition cleaned_csv_file : string := "cleaned_part_numbers_with_prices.csv".

Definition SF_USER : string := "brandon".
Definition SF_PASSWORD : string := "".
Definition SF_ACCOUNT : string := "HC60396.us-east-2.aws".
Definition SF_WAREHOUSE : string := "PIPELINE".
Definition SF_ROLE : string := "ACCOUNTADMIN".

Definition HEADERS : list (string * string) :=
  [("User-Agent", "Mozilla/5.0 (Windows NT 10.0; Win64; x64)")].

Definition error_fields : list string := ["VendorPartNumber"; "Error"].
Definition price_fields : list string :=
  ["SupplierPartNumber"; "Partnumber"; "Cost"].

Definition NOT_FOUND : string := "Not Found".

#[local] Set Warnings "-register-all".

(** ** The parsed page

    What [BeautifulSoup(text, "html.parser")] hands back: a forest of tags
    and strings.  A tag's attributes are a dict. *)
Inductive node : Type :=
| NavigableString (s : string)
| Tag (name : string) (attrs : gmap string string) (contents : list node).

(** A compound selector [name[attr^='prefix']]; the attribute test is
    optional. *)
Record compound : Type := mkCompound {
  sel_name : string;
  sel_attr_prefix : option (string * string)
}.

Definition matches (c : compound) (n : node) : bool :=
  match n with
  | NavigableString _ => false
  | Tag name attrs _ =>
      bool_decide (name = sel_name c) &&
      match sel_attr_prefix c with
      | None => true
      | Some (a, p) =>
          match attrs !! a with
          | Some v => String.prefix p v
          | None => false
          end
      end
  end.

(** [anc desc] with the descendant combinator: the first element, in
    document order, that matches [desc] and lies inside an element that
    matches [anc].  [inside] tells whether an enclosing element matched
    [anc]. *)
Fixpoint select_in (anc desc : compound) (inside : bool) (n : node)
  : option node :=
  match n with
  | NavigableString _ => None
  | Tag _ _ contents =>
      if inside && matches desc n then Some n
      else
        (fix first (ks : list node) : option node :=
           match ks with
           | [] => None
           | k :: ks' =>
               match select_in anc desc (inside || matches anc n) k with
               | Some e => Some e
               | None => first ks'
               end
           end) contents
  end.

(** The same over a forest: the contents of an element, or the whole
    page. *)
Fixpoint select_forest (anc desc : compound) (inside : bool) (soup : list node)
  : option node :=
  match soup with
  | [] => None
  | k :: ks =>
      match select_in anc desc inside k with
      | Some e => Some e
      | None => select_forest anc desc inside ks
      end
  end.

(** The elements below and at [n] in document order, each with the mark
    whether it lies inside an element that matches [anc]. *)
Fixpoint elements (anc : compound) (inside : bool) (n : node)
  : list (node * bool) :=
  match n with
  | NavigableString _ => []
  | Tag _ _ contents =>
      (n, inside) ::
      (fix below (ks : list node) : list (node * bool) :=
         match ks with
         | [] => []
         | k :: ks' => elements anc (inside || matches anc n) k ++ below ks'
         end) contents
  end.

Definition forest_elements (anc : compound) (inside : bool) (soup : list node)
  : list (node * bool) :=
  flat_map (elements anc inside) soup.

Definition document_order (anc : compound) (soup : list node)
  : list (node * bool) :=
  forest_elements anc false soup.

(** [frag] occurs in the forest, at any depth, and no element before it
    in document order is selected. *)
Inductive first_reached (anc desc : compound) (frag : node)
  : bool -> list node -> Prop :=
| reached_here inside pre post :
    select_forest anc desc inside pre = None ->
    first_reached anc desc frag inside (pre ++ frag :: post)
| reached_below inside pre name attrs contents post :
    select_forest anc desc inside pre = None ->
    inside && matches desc (Tag name attrs contents) = false ->
    first_reached anc desc frag
      (inside || matches anc (Tag name attrs contents)) contents ->
    first_reached anc desc frag inside
      (pre ++ Tag name attrs contents :: post).

(** [soup.select_one("span[id^='dprice'] span")]. *)
Definition price_span : compound := mkCompound "span" (Some ("id", "dprice")).
Definition any_span : compound := mkCompound "span" None.

Definition select_one (soup : list node) : option node :=
  select_forest price_span any_span false soup.

(** [<span id="dprice123"><span>$42.95 each</span></span>], parsed. *)
Definition price_fragment : node :=
  Tag "span" {[ "id" := "dprice123" ]}
    [Tag "span" empty [NavigableString "$42.95 each"]].

(** [el.get_text()]: the strings below the element, joined. *)
Fixpoint get_text (n : node) : string :=
  match n with
  | NavigableString s => s
  | Tag _ _ contents =>
      (fix join (ks : list node) : string :=
         match ks with
         | [] => ""
         | k :: ks' => get_text k +:+ join ks'
         end) contents
  end.

(** The selection in the words of the specification: the first element
    whose id starts with "dprice", whatever its name, and in it the first
    nested element that bears text. *)
Definition has_price_id (n : node) : bool :=
  match n with
  | NavigableString _ => false
  | Tag _ attrs _ =>
      match attrs !! "id" with
      | Some v => String.prefix "dprice" v
      | None => false
      end
  end.

Definition bears_text (n : node) : bool :=
  match n with
  | NavigableString _ => false
  | Tag _ _ _ => negb (bool_decide (get_text n = ""))
  end.

Definition no_compound : compound := mkCompound "" None.

Definition first_element (p : node -> bool) (soup : list node) : option node :=
  fst <$> head (List.filter (fun e => p e.1) (document_order no_compound soup)).

Definition contents_of (n : node) : list node :=
  match n with
  | NavigableString _ => []
  | Tag _ _ contents => contents
  end.

Definition worded_price (soup : list node) : option string :=
  match first_element has_price_id soup with
  | None => None
  | Some el =>
      match first_element bears_text (contents_of el) with
      | None => None
      | Some inner => re_search_price (get_text inner)
      end
  end.

(** ** CSV text, as [csv.writer] produces it (excel dialect: comma,
    double quote, CR LF, minimal quoting). *)
Definition dquote : ascii := "034"%char.
Definition CR : ascii := "013"%char.
Definition LF : ascii := "010"%char.
Definition CRLF : string := String CR (String LF "").

Definition csv_special (c : ascii) : bool :=
  Ascii.eqb c "," || Ascii.eqb c dquote || Ascii.eqb c CR || Ascii.eqb c LF.

Fixpoint double_quotes (s : string) : string :=
  match s with
  | EmptyString => ""
  | String c s' =>
      if Ascii.eqb c dquote then String dquote (String dquote (double_quotes s'))
      else String c (double_quotes s')
  end.

Definition csv_field (f : string) : string :=
  if existsb csv_special (list_ascii_of_string f)
  then String dquote (double_quotes f +:+ String dquote "")
  else f.

(** [writer.writerow(fields)]; a row made of one empty field is written as
    a quoted empty field. *)
Definition csv_row (fields : list string) : string :=
  match fields with
  | [""] => String dquote (String dquote CRLF)
  | _ => String.concat "," (map csv_field fields) +:+ CRLF
  end.

(** ** Exceptions

    The exceptions the calls of the program can raise.  All of them are
    instances of [Exception]; signals of the interpreter such as
    [KeyboardInterrupt] are not modelled. *)
Inductive exn : Type :=
| RequestException (kind : string)     (* ConnectionError, Timeout, ... *)
| HTTPError (status : Z)               (* from raise_for_status *)
| SnowflakeError (what : string)
| ClientError (what : string)          (* botocore, from put_object *)
| ValueError (what : string).

Fixpoint dict_get (k : string) (kvs : list (string * string)) : option string :=
  match kvs with
  | [] => None
  | (k', v) :: kvs' => if bool_decide (k' = k) then Some v else dict_get k kvs'
  end.

(** [DictWriter] turns a row into the list of its values in the order of
    [fieldnames]; a missing key gives the empty string, a key outside
    [fieldnames] is a [ValueError]. *)
Definition dict_to_list (fieldnames : list string) (kvs : list (string * string))
  : exn + list string :=
  if forallb (fun kv => bool_decide (kv.1 ∈ fieldnames)) kvs
  then inr (map (fun k => default "" (dict_get k kvs)) fieldnames)
  else inl (ValueError "dict contains fields not in fieldnames").

(** [writer.writerows(rows)] appended to what the buffer holds. *)
Fixpoint writerows (fieldnames : list string) (rows : list (list (string * string)))
  (buf : string) : exn + string :=
  match rows with
  | [] => inr buf
  | r :: rows' =>
      match dict_to_list fieldnames r with
      | inl e => inl e
      | inr vals => writerows fieldnames rows' (buf +:+ csv_row vals)
      end
  end.

(** ** The cleaning step (the loop over [raw_results] at the end of
    [search_part_numbers_on_rockauto]). *)
Fixpoint clean_loop (raw_results cleaned : list PriceRow) : list PriceRow :=
  match raw_results with
  | [] => cleaned
  | row :: rest =>
      match re_search_price (Cost row) with
      | Some g =>
          clean_loop rest
            (cleaned ++ [mkPrice (SupplierPartNumber row) (Partnumber row) g])
      | None => clean_loop rest cleaned
      end
  end.

Definition clean (raw_results : list PriceRow) : list PriceRow :=
  clean_loop raw_results [].

Definition is_sentinel (r : PriceRow) : bool :=
  bool_decide (Cost r = NOT_FOUND).

Definition priced (r : PriceRow) : bool := negb (is_sentinel r).

(** The costs the data model allows in a price row: the sentinel, or a
    text the price pattern matches in full. *)
Definition valid_cost (c : string) : bool :=
  bool_decide (c = NOT_FOUND) || Re.fullmatch price_pattern c.

(** The text of a table: the header row, then one row per record. *)
Definition price_csv (rows : list PriceRow) : string :=
  fold_left
    (fun buf r => buf +:+ csv_row [SupplierPartNumber r; Partnumber r; Cost r])
    rows (csv_row price_fields).

Definition error_csv (rows : list ErrorRow) : string :=
  fold_left
    (fun buf r => buf +:+ csv_row [VendorPartNumber r; Error r])
    rows (csv_row error_fields).

(** ** The outside world

    The warehouse, the retail site and the object store are not part of
    the program.  Their answers come from an oracle over an abstract world
    state, so that two requests for the same part may be answered
    differently. *)
Record Response : Type := mkResponse {
  status_code : Z;
  text : string
}.

Class Externals (World : Type) : Type := {
  (** [requests.get(url, headers=.., timeout=..)] *)
  requests_get : string -> list (string * string) -> Z -> World ->
                 (exn + Response) * World;
  (** [BeautifulSoup(text, "html.parser")] *)
  BeautifulSoup : string -> list node;
  (** [s3.put_object(Bucket=.., Key=.., Body=..)]: does the store accept? *)
  s3_put_object : string -> string -> string -> World -> option exn * World;
  (** [snowflake.connector.connect(user, password, account, warehouse, role)] *)
  snowflake_connect : string -> string -> string -> string -> string ->
                      World -> option exn * World;
  (** [cur.execute(sql)] *)
  cursor_execute : string -> World -> option exn * World;
  (** [cur.fetchall()] *)
  cursor_fetchall : World -> (exn + list (string * string)) * World
}.

(** The result of a call: a value, or an exception on its way up. *)
Inductive outcome (A : Type) : Type :=
| Return (a : A)
| Raise (e : exn).
Arguments Return {A} a.
Arguments Raise {A} e.

(** The success summary of the handler; [body] is the JSON text. *)
Record Summary : Type := mkSummary {
  statusCode : Z;
  body : string
}.

Definition QUERY : string := "
        SELECT VENDOR_PART_NUMBER, PART_NUMBER
          FROM SHARED_VELOCITY.ERP_COMPLETE.PRODUCT_TO_VENDOR
         WHERE vendor_id = '70084'

    ".

(** [json.dumps({"message": m, "searched_count": n})]. *)
Definition quoted (s : string) : string :=
  String dquote (s +:+ String dquote "").

Definition json_dumps_summary (message : string) (searched_count : nat) : string :=
  "{" +:+ quoted "message" +:+ ": " +:+ quoted message +:+ ", " +:+
  quoted "searched_count" +:+ ": " +:+ pretty searched_count +:+ "}".

(** ** The program *)
Section Program.
Context {World : Type} `{Ext : Externals World}.

(** What a run can change: the outside world, the objects of the bucket
    (with the log of accepted uploads), the warehouse connections and
    cursors left open, and the seconds slept. *)
Record State : Type := mkState {
  world : World;
  bucket : gmap string string;
  put_log : list (string * string);
  open_conns : nat;
  open_cursors : nat;
  slept : nat
}.

Definition set_world (w : World) (st : State) : State :=
  mkState w (bucket st) (put_log st) (open_conns st) (open_cursors st) (slept st).

Definition M (A : Type) : Type := State -> outcome A * State.

Definition ret {A} (a : A) : M A := fun st => (Return a, st).

Definition bind {A B} (m : M A) (k : A -> M B) : M B := fun st =>
  match m st with
  | (Return a, st') => k a st'
  | (Raise e, st') => (Raise e, st')
  end.

Definition raise {A} (e : exn) : M A := fun st => (Raise e, st).

(** [try: m  except Exception: h].  Every exception of the model is an
    instance of [Exception], so the handler takes them all. *)
Definition try_except {A} (m : M A) (h : exn -> M A) : M A := fun st =>
  match m st with
  | (Return a, st') => (Return a, st')
  | (Raise e, st') => h e st'
  end.

Notation "x <- m ;; k" := (bind m (fun x => k))
  (at level 100, m at next level, right associativity).
Notation "m ;; k" := (bind m (fun _ => k))
  (at level 100, right associativity).

(** *** Calls into the outside world *)

Definition put_object (Bucket Key Body : string) : M unit := fun st =>
  match s3_put_object Bucket Key Body (world st) with
  | (None, w) =>
      (Return tt,
       mkState w (<[Key := Body]> (bucket st)) (put_log st ++ [(Key, Body)])
               (open_conns st) (open_cursors st) (slept st))
  | (Some e, w) => (Raise e, set_world w st)
  end.

Definition get (url : string) (headers : list (string * string)) (timeout : Z)
  : M Response := fun st =>
  match requests_get url headers timeout (world st) with
  | (inr resp, w) => (Return resp, set_world w st)
  | (inl e, w) => (Raise e, set_world w st)
  end.

(** [resp.raise_for_status()]: client and server error codes raise. *)
Definition raise_for_status (resp : Response) : M unit :=
  if (400 <=? status_code resp)%Z && (status_code resp <? 600)%Z
  then raise (HTTPError (status_code resp))
  else ret tt.

Definition connect (user password account warehouse role : string) : M unit :=
  fun st =>
  match snowflake_connect user password account warehouse role (world st) with
  | (None, w) =>
      (Return tt,
       mkState w (bucket st) (put_log st) (S (open_conns st)) (open_cursors st)
               (slept st))
  | (Some e, w) => (Raise e, set_world w st)
  end.

(** [conn.cursor()], [cur.close()] and [conn.close()] do not fail in the
    model; they count what is open. *)
Definition cursor : M unit := fun st =>
  (Return tt,
   mkState (world st) (bucket st) (put_log st) (open_conns st)
           (S (open_cursors st)) (slept st)).

Definition execute (sql : string) : M unit := fun st =>
  match cursor_execute sql (world st) with
  | (None, w) => (Return tt, set_world w st)
  | (Some e, w) => (Raise e, set_world w st)
  end.

Definition fetchall : M (list (string * string)) := fun st =>
  match cursor_fetchall (world st) with
  | (inr rows, w) => (Return rows, set_world w st)
  | (inl e, w) => (Raise e, set_world w st)
  end.

Definition cursor_close : M unit := fun st =>
  (Return tt,
   mkState (world st) (bucket st) (put_log st) (open_conns st)
           (pred (open_cursors st)) (slept st)).

Definition conn_close : M unit := fun st =>
  (Return tt,
   mkState (world st) (bucket st) (put_log st) (pred (open_conns st))
           (open_cursors st) (slept st)).

(** [time.sleep(seconds)]: only the sum of the waits is kept. *)
Definition sleep (seconds : nat) : M unit := fun st =>
  (Return tt,
   mkState (world st) (bucket st) (put_log st) (open_conns st)
           (open_cursors st) (slept st + seconds)).

(** *** The functions of [rockauto_s3.py] *)

Definition clear_csv_on_s3 (key : string) (headers : list string) : M unit :=
  let buf := csv_row headers in
  put_object BUCKET_NAME key buf.

Definition clear_all_csvs : M unit :=
  clear_csv_on_s3 multi_result_log_csv ["VendorPartNumber"; "Error"] ;;
  clear_csv_on_s3 not_found_log_csv ["VendorPartNumber"; "Error"] ;;
  clear_csv_on_s3 output_csv_file ["SupplierPartNumber"; "Partnumber"; "Cost"] ;;
  clear_csv_on_s3 cleaned_csv_file ["SupplierPartNumber"; "Partnumber"; "Cost"].

Definition fetch_part_numbers : M (list PartRecord) :=
  connect SF_USER SF_PASSWORD SF_ACCOUNT SF_WAREHOUSE SF_ROLE ;;
  cursor ;;
  execute QUERY ;;
  rows <- fetchall ;;
  cursor_close ;;
  conn_close ;;
  ret (map (fun r => mkPart r.1 r.2) rows).

Definition search_url (vpn : string) : string :=
  "https://www.rockauto.com/en/partsearch/?partnum=" +:+ vpn.

Definition fetch_price (vpn : string) : M (option string) :=
  let url := search_url vpn in
  got <- try_except
           (resp <- get url HEADERS 10 ;;
            raise_for_status resp ;;
            ret (Some resp))
           (fun _ => ret None) ;;
  match got with
  | None => ret None
  | Some resp =>
      let soup := BeautifulSoup (text resp) in
      match select_one soup with
      | None => ret None
      | Some el => ret (re_search_price (get_text el))
      end
  end.

(** What [fetch_price] makes of the answer to its request. *)
Definition failed (o : exn + Response) : bool :=
  match o with
  | inl _ => true
  | inr resp => (400 <=? status_code resp)%Z && (status_code resp <? 600)%Z
  end.

Definition price_of_answer (o : exn + Response) : option string :=
  match o with
  | inl _ => None
  | inr resp =>
      if failed o then None
      else
        match select_one (BeautifulSoup (text resp)) with
        | None => None
        | Some el => re_search_price (get_text el)
        end
  end.

Definition save_csv_to_s3 {A} `{Dict A} (rows : list A) (key : string)
  (fieldnames : list string) : M unit :=
  match writerows fieldnames (map items rows) (csv_row fieldnames) with
  | inl e => raise e
  | inr buf => put_object BUCKET_NAME key buf
  end.

(** The three lists the first loop of the aggregator fills. *)
Record Collected : Type := mkCollected {
  raw_results : list PriceRow;
  multi_errors : list string;
  not_found : list string
}.

(** The loop [for rec in part_numbers]. *)
Fixpoint lookup_loop (part_numbers : list PartRecord) (acc : Collected)
  : M Collected :=
  match part_numbers with
  | [] => ret acc
  | rec :: rest =>
      let vpn := vendor_part_number rec in
      let pnum := part_number rec in
      price <- fetch_price vpn ;;
      let acc' :=
        match price with
        | None =>
            mkCollected (raw_results acc ++ [mkPrice vpn pnum NOT_FOUND])
                        (multi_errors acc)
                        (not_found acc ++ [vpn])
        | Some p =>
            mkCollected (raw_results acc ++ [mkPrice vpn pnum p])
                        (multi_errors acc)
                        (not_found acc)
        end in
      sleep 1 ;;
      lookup_loop rest acc'
  end.

Definition multi_entries (multi_errors : list string) : list ErrorRow :=
  map (fun v => mkError v "Multiple results found") multi_errors.

Definition not_found_entries (not_found : list string) : list ErrorRow :=
  map (fun v => mkError v "No results found") not_found.

(** Everything after the loop: the error logs, then the two tables. *)
Definition write_out (c : Collected) : M unit :=
  (if bool_decide (multi_errors c = []) then ret tt
   else save_csv_to_s3 (multi_entries (multi_errors c)) multi_result_log_csv
                       ["VendorPartNumber"; "Error"]) ;;
  (if bool_decide (not_found c = []) then ret tt
   else save_csv_to_s3 (not_found_entries (not_found c)) not_found_log_csv
                       ["VendorPartNumber"; "Error"]) ;;
  save_csv_to_s3 (raw_results c) output_csv_file
                 ["SupplierPartNumber"; "Partnumber"; "Cost"] ;;
  let cleaned := clean (raw_results c) in
  save_csv_to_s3 cleaned cleaned_csv_file
                 ["SupplierPartNumber"; "Partnumber"; "Cost"].

Definition search_part_numbers_on_rockauto (part_numbers : list PartRecord)
  : M unit :=
  c <- lookup_loop part_numbers (mkCollected [] [] []) ;;
  write_out c.

(** [event] and [context] are not read. *)
Definition lambda_handler : M Summary :=
  clear_all_csvs ;;
  parts <- fetch_part_numbers ;;
  search_part_numbers_on_rockauto parts ;;
  ret (mkSummary 200
         (json_dumps_summary "RockAuto scrape complete" (length parts))).

(** *** Vocabulary of the statements *)

(** The store, the connections and the cursors are as they were. *)
Definition same_store (st st' : State) : Prop :=
  bucket st' = bucket st /\ put_log st' = put_log st /\
  open_conns st' = open_conns st /\ open_cursors st' = open_cursors st.

(** One turn of the lookup loop on the three lists. *)
Definition classify (rec : PartRecord) (price : option string) (acc : Collected)
  : Collected :=
  match price with
  | None =>
      mkCollected
        (raw_results acc ++
           [mkPrice (vendor_part_number rec) (part_number rec) NOT_FOUND])
        (multi_errors acc)
        (not_found acc ++ [vendor_part_number rec])
  | Some p =>
      mkCollected
        (raw_results acc ++
           [mkPrice (vendor_part_number rec) (part_number rec) p])
        (multi_errors acc)
        (not_found acc)
  end.

(** Uploads one after the other, stopping at the first refusal. *)
Fixpoint put_all (ups : list (string * string)) : M unit :=
  match ups with
  | [] => ret tt
  | kb :: rest => put_object BUCKET_NAME kb.1 kb.2 ;; put_all rest
  end.

(** The four header-only objects of the reset. *)
Definition resets : list (string * string) :=
  [(multi_result_log_csv, csv_row error_fields);
   (not_found_log_csv, csv_row error_fields);
   (output_csv_file, csv_row price_fields);
   (cleaned_csv_file, csv_row price_fields)].

(** The uploads the aggregator sets out to do with its three lists. *)
Definition uploads (c : Collected) : list (string * string) :=
  (if bool_decide (multi_errors c = []) then []
   else [(multi_result_log_csv, error_csv (multi_entries (multi_errors c)))]) ++
  (if bool_decide (not_found c = []) then []
   else [(not_found_log_csv, error_csv (not_found_entries (not_found c)))]) ++
  [(output_csv_file, price_csv (raw_results c));
   (cleaned_csv_file, price_csv (clean (raw_results c)))].

(** The row-wise reading of the not-found rule: a row carries the
    sentinel exactly when an entry with reason "No results found" names
    its vendor part number. *)
Definition sentinel_iff_entry (c : Collected) : Prop :=
  forall r, In r (raw_results c) ->
    (Cost r = NOT_FOUND <->
     In (mkError (SupplierPartNumber r) "No results found")
        (not_found_entries (not_found c))).

End Program.

(** The bucket after a list of accepted uploads. *)
Definition store_all (ups : list (string * string)) (m : gmap string string)
  : gmap string string :=
  fold_left (fun m kb => <[kb.1 := kb.2]> m) ups m.

(** A text holds a digit somewhere. *)
Definition has_digit (s : string) : bool :=
  existsb Re.is_digit (list_ascii_of_string s).

(** The four keys the program writes, and the header row of each. *)
Definition four_keys : list string :=
  [multi_result_log_csv; not_found_log_csv; output_csv_file; cleaned_csv_file].

Definition header_of (key : string) : string :=
  if bool_decide (key = multi_result_log_csv) ||
     bool_decide (key = not_found_log_csv)
  then csv_row error_fields
  else csv_row price_fields.

(** ** A scripted world

    A world that answers from a script, for runs on concrete inputs: the
    site answers the successive requests from a list and times out when
    the list is used up, the store accepts or refuses the successive
    uploads from a list and accepts when it is used up, the warehouse
    answers as the script says.  The parser is given on the pages the runs
    use. *)
Module Scripted.

Record Script : Type := mkScript {
  site : list (exn + Response);
  store : list (option exn);
  on_connect : option exn;
  on_execute : option exn;
  on_fetchall : exn + list (string * string)
}.

Definition Timeout : exn := RequestException "Timeout".

(** [<span id="dprice123"><span>$42.95 each</span></span>] *)
Definition page_price : string :=
  "<span id=" +:+ quoted "dprice123" +:+ "><span>$42.95 each</span></span>".

Definition soup_price : list node := [price_fragment].

(** The same inside [<html><body><div>..</div></body></html>], with a
    heading before it. *)
Definition page_nested : string :=
  "<html><body><div><h1>Search</h1>" +:+ page_price +:+ "</div></body></html>".

Definition soup_nested : list node :=
  [Tag "html" empty
     [Tag "body" empty
        [Tag "div" empty
           [Tag "h1" empty [NavigableString "Search"]; price_fragment]]]].

(** [<div id="dprice1"><span>$5</span></div>] *)
Definition page_div : string :=
  "<div id=" +:+ quoted "dprice1" +:+ "><span>$5</span></div>".

Definition soup_div : list node :=
  [Tag "div" {[ "id" := "dprice1" ]}
     [Tag "span" empty [NavigableString "$5"]]].

Definition parse (text : string) : list node :=
  if bool_decide (text = page_price) then soup_price
  else if bool_decide (text = page_nested) then soup_nested
  else if bool_decide (text = page_div) then soup_div
  else [].

#[global] Instance scripted : Externals Script := {|
  requests_get _ _ _ w :=
    match site w with
    | [] => (inl Timeout, w)
    | a :: rest =>
        (a, mkScript rest (store w) (on_connect w) (on_execute w) (on_fetchall w))
    end;
  BeautifulSoup := parse;
  s3_put_object _ _ _ w :=
    match store w with
    | [] => (None, w)
    | a :: rest =>
        (a, mkScript (site w) rest (on_connect w) (on_execute w) (on_fetchall w))
    end;
  snowflake_connect _ _ _ _ _ w := (on_connect w, w);
  cursor_execute _ w := (on_execute w, w);
  cursor_fetchall w := (on_fetchall w, w)
|}.

(** A run starts with an empty bucket and nothing open. *)
Definition start (w : Script) : State := mkState w empty [] 0 0 0.

Definition priced_page : exn + Response := inr (mkResponse 200 page_price).

(** The same vendor part number twice; the first request times out. *)
Definition twice : list PartRecord := [mkPart "A" "P1"; mkPart "A" "P2"].
Definition flaky : Script :=
  mkScript [inl Timeout; priced_page] [] None None (inr []).

(** The price sits in a [div]. *)
Definition div_site : Script :=
  mkScript [inr (mkResponse 200 page_div)] [] None None (inr []).

(** A server error with a priced page as its body. *)
Definition error_site : Script :=
  mkScript [inr (mkResponse 500 page_price)] [] None None (inr []).

(** The warehouse refuses the query. *)
Definition query_fails : Script :=
  mkScript [] [] None (Some (SnowflakeError "ProgrammingError")) (inr []).

(** The price sits deep in the page. *)
Definition nested_site : Script :=
  mkScript [inr (mkResponse 200 page_nested)] [] None None (inr []).

(** Two parts, both priced. *)
Definition two_rows : list (string * string) := [("A", "P1"); ("B", "P2")].
Definition all_priced : Script :=
  mkScript [priced_page; priced_page] [] None None (inr two_rows).


(** Two parts; the site answers the first and times out on the second. *)
Definition half_priced : Script :=
  mkScript [priced_page] [] None None (inr two_rows).

(** Costs as the site might word them, before any extraction. *)
Definition worded_rows : list PriceRow :=
  [mkPrice "A" "P1" "$19.99 each"; mkPrice "B" "P2" "call us";
   mkPrice "C" "P3" "5"].

Definition three_rows : list PriceRow :=
  [mkPrice "A" "P1" "19.99"; mkPrice "B" "P2" "Not Found"; mkPrice "C" "P3" "5"].

End Scripted.

(** * Properties *)

(** ** Text *)

Lemma append_cons (c : ascii) (s t : string) :
  String c s +:+ t = String c (s +:+ t).
Proof. reflexivity. Qed.

Lemma append_nil_l (s : string) : "" +:+ s = s.
Proof. reflexivity. Qed.

Lemma append_nil_r (s : string) : s +:+ "" = s.
Proof.
  induction s as [|c s IH]; [reflexivity |]. by rewrite append_cons, IH.
Qed.

Lemma append_assoc (a b c : string) : (a +:+ b) +:+ c = a +:+ (b +:+ c).
Proof.
  induction a as [|x a IH]; [reflexivity |]. by rewrite !append_cons, IH.
Qed.

(** ** The matcher *)

Lemma hd_map_app {A B} (f : A -> B) (l : list A) (t : list B) (x : A) :
  head l = Some x -> head (map f l ++ t) = Some (f x).
Proof. destruct l; simpl; [discriminate | intros [= ->]; reflexivity]. Qed.

Lemma star_head a s : head (Re.star a s) = Some (Re.span a s).
Proof.
  induction s as [|c s IH]; simpl; [reflexivity |].
  destruct (Re.atom_ok a c); [| reflexivity].
  by apply hd_map_app.
Qed.

Lemma plus_head a c s :
  Re.atom_ok a c = true ->
  head (Re.plus a (String c s)) = Some (Re.consume c (Re.span a s)).
Proof.
  intros Hc. simpl. rewrite Hc.
  rewrite <- (app_nil_r (map _ _)). apply hd_map_app, star_head.
Qed.


Lemma head_flat_map {A B} (f : A -> list B) (l : list A) (x : A) :
  head l = Some x -> f x <> [] -> head (flat_map f l) = head (f x).
Proof.
  destruct l as [|a l]; simpl; [discriminate |]. intros [= ->] Hy.
  destruct (f x); simpl in *; [congruence | reflexivity].
Qed.

Lemma run_price_head s : head (Re.run price_pattern s) = price_prefix s.
Proof.
  destruct s as [|c s]; [reflexivity |].
  unfold price_prefix. destruct (Re.is_digit c) eqn:Hc.
  - change (Re.run price_pattern (String c s)) with
      (flat_map (fun m1 => map (fun m2 => (m1.1 +:+ m2.1, m2.2))
         (Re.run (Re.Opt (Re.Seq (Re.Atom (Re.Chr ".")) (Re.Plus Re.Digit))) m1.2))
         (Re.plus Re.Digit (String c s))).
    erewrite head_flat_map; [| by apply plus_head |].
    2: { simpl. intros E. apply map_eq_nil in E.
         apply app_eq_nil in E as [_ E]. discriminate. }
    set (m1 := Re.consume c (Re.span Re.Digit s)).
    destruct (m1.2) as [|p [|c2 t]] eqn:Hrest; simpl.
    + reflexivity.
    + destruct (Ascii.eqb p "."); reflexivity.
    + destruct (Ascii.eqb p ".") eqn:Hp; simpl; [| reflexivity].
      destruct (Re.is_digit c2) eqn:Hc2; simpl; [| reflexivity].
      rewrite app_nil_r.
      pose proof (star_head Re.Digit t) as Hs.
      destruct (Re.star Re.Digit t) as [|m ms]; simpl in *; [discriminate |].
      injection Hs as ->. simpl.
      apply Ascii.eqb_eq in Hp. subst p. reflexivity.
  - simpl. change (Re.atom_ok Re.Digit c) with (Re.is_digit c). by rewrite Hc.
Qed.

Lemma re_match_price s :
  Re.re_match price_pattern s = fst <$> price_prefix s.
Proof.
  unfold Re.re_match. rewrite <- run_price_head.
  by destruct (Re.run price_pattern s).
Qed.

Lemma all_digits_cons c s :
  Re.all_digits (String c s) = Re.is_digit c && Re.all_digits s.
Proof. reflexivity. Qed.


Lemma span_append a s : (Re.span a s).1 +:+ (Re.span a s).2 = s.
Proof.
  induction s as [|c s IH]; simpl; [reflexivity |].
  destruct (Re.atom_ok a c); simpl; [| reflexivity].
  by rewrite append_cons, IH.
Qed.

Lemma span_digits s : Re.all_digits (Re.span Re.Digit s).1 = true.
Proof.
  induction s as [|c s IH]; simpl; [reflexivity |].
  destruct (Re.is_digit c) eqn:Hc; simpl; [| reflexivity].
  by rewrite all_digits_cons, Hc, IH.
Qed.

Lemma span_all_digits d : Re.all_digits d = true -> Re.span Re.Digit d = (d, "").
Proof.
  induction d as [|c d IH]; [reflexivity |].
  rewrite all_digits_cons. intros [Hc Hd]%andb_true_iff.
  simpl. by rewrite Hc, IH.
Qed.

Lemma span_stop d c r :
  Re.all_digits d = true -> Re.is_digit c = false ->
  Re.span Re.Digit (d +:+ String c r) = (d, String c r).
Proof.
  intros Hd Hc. induction d as [|x d IH].
  - simpl. by rewrite Hc.
  - rewrite all_digits_cons in Hd. apply andb_true_iff in Hd as [Hx Hd].
    rewrite append_cons. simpl. by rewrite Hx, IH.
Qed.

Lemma price_prefix_sound s g r :
  price_prefix s = Some (g, r) -> decimal_string g /\ g +:+ r = s.
Proof.
  destruct s as [|c s]; [discriminate |]. unfold price_prefix.
  destruct (Re.is_digit c) eqn:Hc; [| discriminate].
  pose proof (span_append Re.Digit s) as Happ.
  pose proof (span_digits s) as Hdig.
  destruct (Re.span Re.Digit s) as [d1 r1]. simpl in *.
  assert (Hd1 : Re.all_digits (String c d1) = true)
    by (by rewrite all_digits_cons, Hc, Hdig).
  assert (Hint : Some (String c d1 +:+ "", r1) = Some (g, r) ->
                 decimal_string g /\ g +:+ r = String c s).
  { rewrite append_nil_r. intros [= <- <-]. split.
    - by apply decimal_int.
    - by rewrite append_cons, Happ. }
  destruct r1 as [|p [|c2 t]]; [done | done |].
  destruct (Ascii.eqb p ".") eqn:Hp; simpl; [| done].
  destruct (Re.is_digit c2) eqn:Hc2; [| done].
  apply Ascii.eqb_eq in Hp. subst p.
  pose proof (span_append Re.Digit t) as Happ2.
  pose proof (span_digits t) as Hdig2.
  destruct (Re.span Re.Digit t) as [d2 r2]. simpl in *.
  intros [= <- <-]. split.
  - apply decimal_frac; [done | done | done |].
    by rewrite all_digits_cons, Hc2, Hdig2.
  - rewrite append_assoc, !append_cons, Happ2, <- Happ. reflexivity.
Qed.

Lemma price_prefix_decimal g : decimal_string g -> price_prefix g = Some (g, "").
Proof.
  intros [d Hne Hd | d1 d2 Hne1 Hd1 Hne2 Hd2].
  - destruct d as [|c d]; [done |].
    rewrite all_digits_cons in Hd. apply andb_true_iff in Hd as [Hc Hd].
    unfold price_prefix. rewrite Hc, (span_all_digits d Hd). simpl.
    by rewrite append_nil_r.
  - destruct d1 as [|c d1]; [done |]. destruct d2 as [|c2 d2]; [done |].
    rewrite all_digits_cons in Hd1, Hd2.
    apply andb_true_iff in Hd1 as [Hc Hd1].
    apply andb_true_iff in Hd2 as [Hc2 Hd2].
    rewrite append_cons. unfold price_prefix.
    rewrite Hc, (span_stop d1 "." _ Hd1 eq_refl). simpl.
    rewrite Hc2, (span_all_digits d2 Hd2). reflexivity.
Qed.

Lemma search_unfold r s :
  Re.search r s =
  match Re.re_match r s with
  | Some g => Some g
  | None =>
      match s with
      | String _ s' => Re.search r s'
      | EmptyString => None
      end
  end.
Proof. by destruct s. Qed.

(** What [re.search] finds is a decimal number. *)
Lemma search_decimal s g : re_search_price s = Some g -> decimal_string g.
Proof.
  unfold re_search_price.
  induction s as [|c s IH]; rewrite search_unfold, re_match_price.
  - discriminate.
  - destruct (price_prefix (String c s)) as [[g' r]|] eqn:Hp; simpl.
    + intros [= <-]. by apply price_prefix_sound in Hp as [? _].
    + exact IH.
Qed.

(** Searching a decimal number finds the whole of it. *)
Lemma search_of_decimal g : decimal_string g -> re_search_price g = Some g.
Proof.
  intros Hg. unfold re_search_price.
  assert (Hm : Re.re_match price_pattern g = Some g)
    by (by rewrite re_match_price, (price_prefix_decimal g Hg)).
  by rewrite search_unfold, Hm.
Qed.

Lemma search_idempotent s g :
  re_search_price s = Some g -> re_search_price g = Some g.
Proof. intros H. by apply search_of_decimal, (search_decimal s). Qed.

Lemma sentinel_not_decimal : ~ decimal_string NOT_FOUND.
Proof. intros H. apply search_of_decimal in H. by vm_compute in H. Qed.

Lemma search_not_sentinel s g : re_search_price s = Some g -> g <> NOT_FOUND.
Proof.
  intros H ->. exact (sentinel_not_decimal (search_decimal _ _ H)).
Qed.

(** Every alternative of the matcher, not only the first, splits the text
    into what it matched and the rest. *)
Lemma star_sound s m :
  In m (Re.star Re.Digit s) -> Re.all_digits m.1 = true /\ m.1 +:+ m.2 = s.
Proof.
  revert m. induction s as [|c s IH]; intros m; simpl.
  - intros [<- | []]. by split.
  - destruct (Re.is_digit c) eqn:Hc.
    + rewrite in_app_iff, in_map_iff. intros [(m' & <- & Hm') | [<- | []]].
      * apply IH in Hm' as [Hd Happ]. simpl.
        by rewrite all_digits_cons, Hc, Hd, append_cons, Happ.
      * by split.
    + intros [<- | []]. by split.
Qed.

Lemma plus_sound s m :
  In m (Re.plus Re.Digit s) ->
  m.1 <> "" /\ Re.all_digits m.1 = true /\ m.1 +:+ m.2 = s.
Proof.
  destruct s as [|c s]; simpl; [done |].
  destruct (Re.is_digit c) eqn:Hc; [| done].
  rewrite in_map_iff. intros (m' & <- & [Hd Happ]%star_sound). simpl.
  by rewrite all_digits_cons, Hc, Hd, append_cons, Happ.
Qed.

Lemma run_price_sound s m :
  In m (Re.run price_pattern s) -> decimal_string m.1 /\ m.1 +:+ m.2 = s.
Proof.
  change (Re.run price_pattern s) with
    (flat_map (fun m1 => map (fun m2 => (m1.1 +:+ m2.1, m2.2))
       (Re.run (Re.Opt (Re.Seq (Re.Atom (Re.Chr ".")) (Re.Plus Re.Digit))) m1.2))
       (Re.plus Re.Digit s)).
  rewrite in_flat_map. intros (m1 & Hm1 & Hm).
  apply plus_sound in Hm1 as (Hne1 & Hd1 & Happ1).
  apply in_map_iff in Hm as (m2 & <- & Hm2). simpl in Hm2 |- *.
  apply in_app_iff in Hm2 as [Hm2 | [<- | []]].
  - apply in_flat_map in Hm2 as (a & Ha & Hb).
    apply in_map_iff in Hb as (b & <- & Hb).
    apply plus_sound in Hb as (Hne2 & Hd2 & Happ2).
    destruct (m1.2) as [|p rest] eqn:Hrest; [done |].
    destruct (Ascii.eqb p ".") eqn:Hp; [| done].
    apply Ascii.eqb_eq in Hp. subst p. destruct Ha as [<- | []].
    simpl in *. split.
    + by apply decimal_frac.
    + rewrite !append_assoc.
      change ("." +:+ (b.1 +:+ b.2)) with (String "." (b.1 +:+ b.2)).
      by rewrite Happ2.
  - simpl. rewrite append_nil_r. split; [by apply decimal_int | done].
Qed.

(** [re.fullmatch] with the price pattern accepts exactly the decimal
    numbers. *)
Lemma fullmatch_decimal s :
  Re.fullmatch price_pattern s = true <-> decimal_string s.
Proof.
  unfold Re.fullmatch. split.
  - rewrite existsb_exists. intros (m & Hm & Hrest).
    apply bool_decide_eq_true in Hrest.
    apply run_price_sound in Hm as [Hdec Happ].
    by rewrite Hrest, append_nil_r in Happ; subst.
  - intros Hs. pose proof (run_price_head s) as Hh.
    rewrite (price_prefix_decimal s Hs) in Hh.
    destruct (Re.run price_pattern s) as [|m ms]; [discriminate |].
    injection Hh as ->. reflexivity.
Qed.

Lemma search_fullmatch s g :
  re_search_price s = Some g -> Re.fullmatch price_pattern g = true.
Proof. intros H. by apply fullmatch_decimal, (search_decimal s). Qed.

(** ** The cleaning step *)

Lemma clean_loop_app raw acc : clean_loop raw acc = acc ++ clean raw.
Proof.
  unfold clean. revert acc. induction raw as [|r raw IH]; intros acc; simpl.
  - by rewrite app_nil_r.
  - destruct (re_search_price (Cost r)) as [g|].
    + rewrite (IH (acc ++ _)), (IH [_]). by rewrite <- app_assoc.
    + apply IH.
Qed.

Lemma clean_cons r raw :
  clean (r :: raw) =
  match re_search_price (Cost r) with
  | Some g => mkPrice (SupplierPartNumber r) (Partnumber r) g :: clean raw
  | None => clean raw
  end.
Proof.
  unfold clean at 1. simpl. destruct (re_search_price (Cost r)); [| reflexivity].
  by rewrite clean_loop_app.
Qed.

Lemma valid_cost_search c :
  valid_cost c = true ->
  re_search_price c = if bool_decide (c = NOT_FOUND) then None else Some c.
Proof.
  unfold valid_cost. case_bool_decide as Hc; simpl.
  - by subst.
  - intros Hf. by apply search_of_decimal, fullmatch_decimal.
Qed.

Lemma clean_valid raw :
  Forall (fun r => valid_cost (Cost r) = true) raw ->
  clean raw = List.filter priced raw.
Proof.
  induction 1 as [|r raw Hr _ IH]; [reflexivity |].
  rewrite clean_cons, (valid_cost_search _ Hr). simpl.
  unfold priced, is_sentinel. case_bool_decide; simpl; rewrite IH; [done |].
  by destruct r.
Qed.

Lemma clean_costs_decimal raw :
  Forall (fun r => decimal_string (Cost r)) (clean raw).
Proof.
  induction raw as [|r raw IH]; [constructor |].
  rewrite clean_cons. destruct (re_search_price (Cost r)) as [g|] eqn:Hg; [| done].
  constructor; [| done]. simpl. by apply (search_decimal (Cost r)).
Qed.

(** ** The price fetcher *)
Section ProgramFacts.
Context {World : Type} `{Ext : Externals World}.
Implicit Types (st : @State World) (parts : list PartRecord).
Implicit Types (acc c : Collected).

(** [fetch_price] always returns, and what it returns is decided by the
    answer to its one request. *)
Lemma fetch_price_eq vpn st :
  fetch_price vpn st =
  (Return (price_of_answer (requests_get (search_url vpn) HEADERS 10 (world st)).1),
   set_world (requests_get (search_url vpn) HEADERS 10 (world st)).2 st).
Proof.
  unfold fetch_price, bind, try_except, get, raise_for_status, raise, ret,
    price_of_answer, failed.
  destruct (requests_get (search_url vpn) HEADERS 10 (world st)) as [[e|resp] w];
    simpl; [reflexivity |].
  destruct ((400 <=? status_code resp)%Z && (status_code resp <? 600)%Z);
    simpl; [reflexivity |].
  by destruct (select_one (BeautifulSoup (text resp))).
Qed.

Lemma price_of_answer_decimal o p :
  price_of_answer o = Some p -> decimal_string p.
Proof.
  unfold price_of_answer. destruct o as [e|resp]; [done |].
  destruct (failed (inr resp)); [done |].
  destruct (select_one _) as [el|]; [| done].
  apply search_decimal.
Qed.

(** ** The lookup loop *)

Lemma lookup_loop_cons rec rest acc st :
  lookup_loop (rec :: rest) acc st =
  let o := requests_get (search_url (vendor_part_number rec)) HEADERS 10 (world st) in
  lookup_loop rest (classify rec (price_of_answer o.1) acc)
    (mkState o.2 (bucket st) (put_log st) (open_conns st) (open_cursors st)
             (slept st + 1)).
Proof.
  cbn [lookup_loop]. unfold bind at 1. rewrite fetch_price_eq.
  unfold bind, sleep, classify. simpl.
  by destruct (price_of_answer _).
Qed.

Lemma lookup_loop_spec parts acc st :
  exists rows st',
    lookup_loop parts acc st =
      (Return (mkCollected
                 (raw_results acc ++ rows)
                 (multi_errors acc)
                 (not_found acc ++
                    map SupplierPartNumber (List.filter is_sentinel rows))),
       st') /\
    map (fun r => (SupplierPartNumber r, Partnumber r)) rows =
      map (fun p => (vendor_part_number p, part_number p)) parts /\
    Forall (fun r => valid_cost (Cost r) = true) rows /\
    same_store st st' /\ slept st' = slept st + length parts.
Proof.
  revert acc st. induction parts as [|rec rest IH]; intros acc st.
  - exists [], st. simpl. rewrite !app_nil_r. destruct acc.
    repeat split; [constructor | lia].
  - rewrite lookup_loop_cons. cbv zeta.
    set (o := requests_get _ _ _ _).
    destruct (IH (classify rec (price_of_answer o.1) acc)
                (mkState o.2 (bucket st) (put_log st) (open_conns st)
                   (open_cursors st) (slept st + 1)))
      as (rows & st' & Hrun & Hv & Hvalid & Hsame & Hslept).
    destruct (price_of_answer o.1) as [p|] eqn:Hprice.
    + exists (mkPrice (vendor_part_number rec) (part_number rec) p :: rows), st'.
      pose proof (price_of_answer_decimal _ _ Hprice) as Hdec.
      assert (Hns : bool_decide (p = NOT_FOUND) = false).
      { apply bool_decide_eq_false. intros ->. by apply sentinel_not_decimal. }
      split; [| split; [| split; [| split]]].
      * rewrite Hrun. simpl. unfold is_sentinel at 2. simpl. rewrite Hns.
        by rewrite <- !app_assoc.
      * simpl. by rewrite Hv.
      * constructor; [| done]. simpl. unfold valid_cost.
        by rewrite (proj2 (fullmatch_decimal p) Hdec), orb_true_r.
      * exact Hsame.
      * rewrite Hslept. simpl. lia.
    + exists (mkPrice (vendor_part_number rec) (part_number rec) NOT_FOUND :: rows), st'.
      split; [| split; [| split; [| split]]].
      * rewrite Hrun. simpl. by rewrite <- !app_assoc.
      * simpl. by rewrite Hv.
      * constructor; [| done]. reflexivity.
      * exact Hsame.
      * rewrite Hslept. simpl. lia.
Qed.

(** ** The writers *)

Lemma bind_ret_tt (m : M unit) st : bind m (fun _ => ret tt) st = m st.
Proof. unfold bind, ret. by destruct (m st) as [[[]|e] st']. Qed.

Lemma bind_ext {A B} (m : M A) (k1 k2 : A -> M B) st :
  (forall a st', k1 a st' = k2 a st') -> bind m k1 st = bind m k2 st.
Proof. intros Hk. unfold bind. destruct (m st) as [[a|e] st']; [apply Hk | done]. Qed.

Lemma dict_to_list_price (r : PriceRow) :
  dict_to_list price_fields (items r) =
  inr [SupplierPartNumber r; Partnumber r; Cost r].
Proof. destruct r. vm_compute. reflexivity. Qed.

Lemma dict_to_list_error (r : ErrorRow) :
  dict_to_list error_fields (items r) = inr [VendorPartNumber r; Error r].
Proof. destruct r. vm_compute. reflexivity. Qed.

Lemma writerows_price rows buf :
  writerows price_fields (map items rows) buf =
  inr (fold_left
         (fun buf r => buf +:+ csv_row [SupplierPartNumber r; Partnumber r; Cost r])
         rows buf).
Proof.
  revert buf. induction rows as [|r rows IH]; intros buf; [reflexivity |].
  cbn [map writerows fold_left]. rewrite dict_to_list_price. apply IH.
Qed.

Lemma writerows_error rows buf :
  writerows error_fields (map items rows) buf =
  inr (fold_left
         (fun buf r => buf +:+ csv_row [VendorPartNumber r; Error r])
         rows buf).
Proof.
  revert buf. induction rows as [|r rows IH]; intros buf; [reflexivity |].
  cbn [map writerows fold_left]. rewrite dict_to_list_error. apply IH.
Qed.

(** Saving a table never fails on the rows; it is one upload. *)
Lemma save_price rows key st :
  save_csv_to_s3 rows key price_fields st =
  put_object BUCKET_NAME key (price_csv rows) st.
Proof. unfold save_csv_to_s3. by rewrite writerows_price. Qed.

Lemma save_error rows key st :
  save_csv_to_s3 rows key error_fields st =
  put_object BUCKET_NAME key (error_csv rows) st.
Proof. unfold save_csv_to_s3. by rewrite writerows_error. Qed.

Lemma clear_all_csvs_eq st : clear_all_csvs st = put_all resets st.
Proof.
  unfold clear_all_csvs, clear_csv_on_s3, resets. cbn [put_all fst snd].
  repeat (apply bind_ext; intros _ ?). by rewrite bind_ret_tt.
Qed.

Lemma bind_ret_l {A B} (a : A) (k : A -> M B) st : bind (ret a) k st = k a st.
Proof. reflexivity. Qed.

Lemma bind_cong {A B} (m1 m2 : M A) (k1 k2 : A -> M B) st :
  m1 st = m2 st -> (forall a st', k1 a st' = k2 a st') ->
  bind m1 k1 st = bind m2 k2 st.
Proof. intros Hm Hk. unfold bind. rewrite Hm. destruct (m2 st) as [[a|e] st']; [apply Hk | done]. Qed.

Lemma write_out_eq c st : write_out c st = put_all (uploads c) st.
Proof.
  assert (Htail : forall st,
    bind (save_csv_to_s3 (raw_results c) output_csv_file price_fields)
      (fun _ => save_csv_to_s3 (clean (raw_results c)) cleaned_csv_file price_fields) st =
    put_all [(output_csv_file, price_csv (raw_results c));
             (cleaned_csv_file, price_csv (clean (raw_results c)))] st).
  { intros st0. cbn [put_all fst snd].
    apply bind_cong; [apply save_price |].
    intros _ st1. rewrite bind_ret_tt. apply save_price. }
  unfold write_out, uploads.
  change ["VendorPartNumber"; "Error"] with error_fields.
  destruct (bool_decide (multi_errors c = [])), (bool_decide (not_found c = []));
    cbn [app put_all fst snd].
  - rewrite !bind_ret_l. apply Htail.
  - rewrite bind_ret_l. apply bind_cong; [apply save_error |].
    intros _ st1. apply Htail.
  - apply bind_cong; [apply save_error |].
    intros _ st1. rewrite bind_ret_l. apply Htail.
  - apply bind_cong; [apply save_error |].
    intros _ st1. apply bind_cong; [apply save_error |].
    intros _ st2. apply Htail.
Qed.

(** ** The store *)

Lemma put_all_spec ups st :
  exists done,
    done `prefix_of` ups /\
    put_log (put_all ups st).2 = put_log st ++ done /\
    bucket (put_all ups st).2 = store_all done (bucket st) /\
    open_conns (put_all ups st).2 = open_conns st /\
    open_cursors (put_all ups st).2 = open_cursors st /\
    ((put_all ups st).1 = Return tt -> done = ups).
Proof.
  revert st. induction ups as [|[k b] ups IH]; intros st.
  - exists []. simpl. by rewrite app_nil_r.
  - cbn [put_all fst snd]. unfold bind, put_object.
    destruct (s3_put_object BUCKET_NAME k b (world st)) as [[e|] w].
    + exists []. simpl. rewrite app_nil_r. repeat split; [| done].
      apply prefix_nil.
    + match goal with |- context [put_all ups ?s] => destruct (IH s)
        as (done & Hpre & Hlog & Hbucket & Hconn & Hcur & Hret) end.
      exists ((k, b) :: done). simpl in *.
      rewrite Hlog, Hbucket, Hconn, Hcur, <- app_assoc.
      repeat split; [by apply prefix_cons |].
      intros Hr. by rewrite (Hret Hr).
Qed.

Lemma store_all_lookup_ne ups (m : gmap string string) k :
  Forall (fun kb => kb.1 <> k) ups -> store_all ups m !! k = m !! k.
Proof.
  unfold store_all. intros H. revert m.
  induction H as [|[k' b] ups Hk _ IH]; intros m.
  - reflexivity.
  - simpl. rewrite IH. by apply lookup_insert_ne.
Qed.

Lemma Forall_prefix {A} (P : A -> Prop) (l1 l2 : list A) :
  l1 `prefix_of` l2 -> Forall P l2 -> Forall P l1.
Proof. intros [k ->] H. by apply Forall_app in H as [? _]. Qed.

(** After the reset each of the four keys holds its header row. *)
Lemma resets_lookup (m : gmap string string) :
  store_all resets m !! multi_result_log_csv = Some (csv_row error_fields) /\
  store_all resets m !! not_found_log_csv = Some (csv_row error_fields) /\
  store_all resets m !! output_csv_file = Some (csv_row price_fields) /\
  store_all resets m !! cleaned_csv_file = Some (csv_row price_fields).
Proof.
  unfold store_all, resets. cbn [fold_left fst snd].
  repeat split.
  - rewrite !lookup_insert_ne by done. apply lookup_insert_eq.
  - rewrite !lookup_insert_ne by done. apply lookup_insert_eq.
  - rewrite !lookup_insert_ne by done. apply lookup_insert_eq.
  - apply lookup_insert_eq.
Qed.

(** The aggregator never names the multi-result log, and names the
    not-found log only when it has an entry for it. *)
Lemma uploads_no_multi c :
  multi_errors c = [] ->
  Forall (fun kb => kb.1 <> multi_result_log_csv) (uploads c).
Proof.
  intros Hm. unfold uploads. rewrite Hm. simpl.
  destruct (bool_decide (not_found c = [])); repeat constructor; done.
Qed.

Lemma uploads_no_not_found c :
  multi_errors c = [] -> not_found c = [] ->
  Forall (fun kb => kb.1 <> not_found_log_csv) (uploads c).
Proof.
  intros Hm Hn. unfold uploads. rewrite Hm, Hn. simpl.
  repeat constructor; done.
Qed.

(** ** The warehouse reader *)

Lemma fetch_part_numbers_store st :
  bucket (fetch_part_numbers st).2 = bucket st /\
  put_log (fetch_part_numbers st).2 = put_log st.
Proof.
  unfold fetch_part_numbers, bind, connect, cursor, execute, fetchall,
    cursor_close, conn_close, ret.
  destruct (snowflake_connect _ _ _ _ _ _) as [[e|] w1]; simpl; [done |].
  destruct (cursor_execute _ _) as [[e|] w2]; simpl; [done |].
  by destruct (cursor_fetchall _) as [[e|rows] w3].
Qed.

Lemma fetch_part_numbers_connect_fails st e w :
  snowflake_connect SF_USER SF_PASSWORD SF_ACCOUNT SF_WAREHOUSE SF_ROLE (world st)
    = (Some e, w) ->
  fetch_part_numbers st = (Raise e, set_world w st).
Proof. intros H. unfold fetch_part_numbers, bind, connect. by rewrite H. Qed.

Lemma fetch_part_numbers_execute_fails st e w1 w2 :
  snowflake_connect SF_USER SF_PASSWORD SF_ACCOUNT SF_WAREHOUSE SF_ROLE (world st)
    = (None, w1) ->
  cursor_execute QUERY w1 = (Some e, w2) ->
  fetch_part_numbers st =
    (Raise e,
     mkState w2 (bucket st) (put_log st) (S (open_conns st))
             (S (open_cursors st)) (slept st)).
Proof.
  intros H1 H2.
  unfold fetch_part_numbers, bind, connect, cursor, execute.
  rewrite H1. simpl. by rewrite H2.
Qed.

Lemma fetch_part_numbers_fetchall_fails st e w1 w2 w3 :
  snowflake_connect SF_USER SF_PASSWORD SF_ACCOUNT SF_WAREHOUSE SF_ROLE (world st)
    = (None, w1) ->
  cursor_execute QUERY w1 = (None, w2) ->
  cursor_fetchall w2 = (inl e, w3) ->
  fetch_part_numbers st =
    (Raise e,
     mkState w3 (bucket st) (put_log st) (S (open_conns st))
             (S (open_cursors st)) (slept st)).
Proof.
  intros H1 H2 H3.
  unfold fetch_part_numbers, bind, connect, cursor, execute, fetchall.
  rewrite H1. simpl. rewrite H2. simpl. by rewrite H3.
Qed.

Lemma fetch_part_numbers_returns st rows w1 w2 w3 :
  snowflake_connect SF_USER SF_PASSWORD SF_ACCOUNT SF_WAREHOUSE SF_ROLE (world st)
    = (None, w1) ->
  cursor_execute QUERY w1 = (None, w2) ->
  cursor_fetchall w2 = (inr rows, w3) ->
  fetch_part_numbers st =
    (Return (map (fun r => mkPart r.1 r.2) rows),
     mkState w3 (bucket st) (put_log st) (open_conns st) (open_cursors st)
             (slept st)).
Proof.
  intros H1 H2 H3.
  unfold fetch_part_numbers, bind, connect, cursor, execute, fetchall,
    cursor_close, conn_close, ret.
  rewrite H1. simpl. rewrite H2. simpl. by rewrite H3.
Qed.

End ProgramFacts.

(** ** The selector *)

Lemma node_ind' (P : node -> Prop) :
  (forall s, P (NavigableString s)) ->
  (forall name attrs contents,
      Forall P contents -> P (Tag name attrs contents)) ->
  forall n, P n.
Proof.
  intros Hs Ht. fix IH 1. intros [s | name attrs contents].
  - apply Hs.
  - apply Ht. induction contents as [|k ks IHks]; constructor;
      [apply IH | apply IHks].
Qed.

Lemma head_filter_app {A} (f : A -> bool) (l1 l2 : list A) :
  head (List.filter f (l1 ++ l2)) =
  match head (List.filter f l1) with
  | Some x => Some x
  | None => head (List.filter f l2)
  end.
Proof. rewrite List.filter_app. by destruct (List.filter f l1). Qed.

Lemma select_in_tag anc desc inside name attrs contents :
  select_in anc desc inside (Tag name attrs contents) =
  if inside && matches desc (Tag name attrs contents)
  then Some (Tag name attrs contents)
  else select_forest anc desc
         (inside || matches anc (Tag name attrs contents)) contents.
Proof.
  cbn [select_in].
  destruct (inside && matches desc (Tag name attrs contents)); [reflexivity |].
  generalize (inside || matches anc (Tag name attrs contents)). intros b.
  induction contents as [|k ks IH]; [reflexivity |].
  cbn [select_forest]. by destruct (select_in anc desc b k).
Qed.

Lemma select_forest_app anc desc inside pre post :
  select_forest anc desc inside (pre ++ post) =
  match select_forest anc desc inside pre with
  | Some e => Some e
  | None => select_forest anc desc inside post
  end.
Proof.
  induction pre as [|k ks IH]; [reflexivity |]. simpl.
  by destruct (select_in anc desc inside k).
Qed.

(** The selection is the first element in document order that matches
    [desc] and carries the mark. *)
Lemma select_in_elements anc desc n :
  forall inside,
    select_in anc desc inside n =
    fst <$> head (List.filter (fun e => e.2 && matches desc e.1)
                    (elements anc inside n)).
Proof.
  induction n as [s | name attrs contents IH] using node_ind'; intros inside.
  - reflexivity.
  - cbn [select_in elements List.filter fst snd].
    destruct (inside && matches desc (Tag name attrs contents)); [reflexivity |].
    generalize (inside || matches anc (Tag name attrs contents)). intros b.
    induction IH as [|k ks Hk _ IHks]; [reflexivity |].
    rewrite head_filter_app, Hk.
    destruct (head (List.filter _ (elements anc b k))); [reflexivity |].
    exact IHks.
Qed.

Lemma select_forest_document_order anc desc inside soup :
  select_forest anc desc inside soup =
  fst <$> head (List.filter (fun e => e.2 && matches desc e.1)
                  (forest_elements anc inside soup)).
Proof.
  unfold forest_elements. induction soup as [|k ks IH]; [reflexivity |].
  cbn [select_forest flat_map]. rewrite head_filter_app, select_in_elements.
  destruct (head (List.filter _ (elements anc inside k))); [reflexivity |].
  exact IH.
Qed.

(** A fragment that is reached first and selects something, whatever the
    mark it is reached with, decides the selection. *)
Lemma first_reached_select anc desc frag inside soup :
  first_reached anc desc frag inside soup ->
  (forall b, is_Some (select_in anc desc b frag)) ->
  exists b, select_forest anc desc inside soup = select_in anc desc b frag.
Proof.
  intros Hreach Hfrag.
  induction Hreach as [inside pre post Hpre
                      | inside pre name attrs contents post Hpre Hself _ IH].
  - exists inside. rewrite select_forest_app, Hpre. cbn [select_forest].
    by destruct (Hfrag inside) as [el ->].
  - destruct IH as [b Hb]. exists b.
    rewrite select_forest_app, Hpre. cbn [select_forest].
    rewrite select_in_tag, Hself, Hb.
    by destruct (Hfrag b) as [el ->].
Qed.

Lemma price_fragment_selected b :
  exists el,
    select_in price_span any_span b price_fragment = Some el /\
    get_text el = "$42.95 each".
Proof. destruct b; eexists; split; vm_compute; reflexivity. Qed.

(** ** The aggregator *)

Lemma NoDup_map_inj_on {A B} (f : A -> B) (l : list A) (a b : A) :
  NoDup (map f l) -> In a l -> In b l -> f a = f b -> a = b.
Proof.
  induction l as [|x l IH]; simpl; [done |].
  intros [Hx Hl]%NoDup_cons [-> | Ha] [-> | Hb] Hab; try done.
  - exfalso. apply Hx, list_elem_of_In. rewrite Hab. by apply in_map.
  - exfalso. apply Hx, list_elem_of_In. rewrite <- Hab. by apply in_map.
  - by apply IH.
Qed.

Section Aggregator.
Context {World : Type} `{Ext : Externals World}.
Implicit Types (st : @State World) (parts : list PartRecord).

(** The loop from its empty lists: it returns, with one row per record,
    every cost allowed by the data model, no multi-result entry, and one
    not-found entry per sentinel row. *)
Lemma lookup_loop_run parts st :
  exists c st',
    lookup_loop parts (mkCollected [] [] []) st = (Return c, st') /\
    map (fun r => (SupplierPartNumber r, Partnumber r)) (raw_results c) =
      map (fun p => (vendor_part_number p, part_number p)) parts /\
    Forall (fun r => valid_cost (Cost r) = true) (raw_results c) /\
    multi_errors c = [] /\
    not_found c = map SupplierPartNumber (List.filter is_sentinel (raw_results c)) /\
    same_store st st'.
Proof.
  destruct (lookup_loop_spec parts (mkCollected [] [] []) st)
    as (rows & st' & Hrun & Hmap & Hvalid & Hsame & _).
  eexists _, st'. split; [exact Hrun |]. simpl.
  split; [exact Hmap |]. split; [exact Hvalid |].
  split; [reflexivity |]. split; [reflexivity | exact Hsame].
Qed.

Lemma search_eq parts st c st' :
  lookup_loop parts (mkCollected [] [] []) st = (Return c, st') ->
  search_part_numbers_on_rockauto parts st = put_all (uploads c) st'.
Proof.
  intros Hrun. unfold search_part_numbers_on_rockauto, bind. rewrite Hrun.
  apply write_out_eq.
Qed.

End Aggregator.

Lemma valid_cost_cases c :
  valid_cost c = true ->
  c = NOT_FOUND \/ Re.fullmatch price_pattern c = true.
Proof.
  unfold valid_cost. intros [H | H]%orb_true_iff; [left | by right].
  by apply bool_decide_eq_true in H.
Qed.

Lemma sentinel_no_fullmatch : Re.fullmatch price_pattern NOT_FOUND = false.
Proof. vm_compute. reflexivity. Qed.

(** [fetch_price] raises in no world. *)
Lemma fetch_price_returns
  {World : Type} {Ext : Externals World} (vpn : string) (st : @State World) :
  exists p, (fetch_price vpn st).1 = Return p.
Proof. rewrite fetch_price_eq. by eexists. Qed.

(** ** The handler *)
Section Handler.
Context {World : Type} `{Ext : Externals World}.
Implicit Types (st : @State World) (parts : list PartRecord).

Lemma clear_all_csvs_returns st st1 :
  clear_all_csvs st = (Return tt, st1) ->
  put_log st1 = put_log st ++ resets /\
  bucket st1 = store_all resets (bucket st).
Proof.
  rewrite clear_all_csvs_eq. intros Hrun.
  destruct (put_all_spec resets st) as (done & _ & Hlog & Hbucket & _ & _ & Hret).
  rewrite Hrun in Hlog, Hbucket, Hret. simpl in *.
  by rewrite Hlog, Hbucket, (Hret eq_refl).
Qed.

(** The reset comes first: whatever happens later, the uploads of a run
    begin with the four header-only objects, or stop among them. *)
Lemma lambda_handler_resets_first st :
  exists new,
    put_log (lambda_handler st).2 = put_log st ++ new /\
    (new `prefix_of` resets \/ resets `prefix_of` new).
Proof.
  unfold lambda_handler, bind. rewrite clear_all_csvs_eq.
  destruct (put_all_spec resets st) as (done & Hpre & Hlog & _ & _ & _ & Hret).
  destruct (put_all resets st) as [[[]|e] st1]; simpl in *.
  2: { exists done. by split; [| left]. }
  rewrite (Hret eq_refl) in Hlog.
  pose proof (fetch_part_numbers_store st1) as [_ Hlog2].
  destruct (fetch_part_numbers st1) as [[parts|e] st2]; simpl in *.
  2: { exists resets. split; [congruence | by left]. }
  destruct (lookup_loop_run parts st2) as (c & st3 & Hrun & _ & _ & _ & _ & Hsame).
  pose proof (search_eq _ _ _ _ Hrun) as Hsearch.
  destruct (put_all_spec (uploads c) st3) as (done' & _ & Hlog3 & _).
  destruct Hsame as (_ & Hl & _).
  exists (resets ++ done'). split; [| right; by apply prefix_app_r].
  rewrite app_assoc, <- Hlog, <- Hlog2, <- Hl, <- Hlog3, <- Hsearch.
  by destruct (search_part_numbers_on_rockauto parts st2) as [[[]|e] st4].
Qed.

(** The run of the aggregator as a list of uploads. *)
Lemma search_uploads parts st :
  exists c st1 new,
    lookup_loop parts (mkCollected [] [] []) st = (Return c, st1) /\
    multi_errors c = [] /\
    new `prefix_of` uploads c /\
    put_log (search_part_numbers_on_rockauto parts st).2 = put_log st ++ new /\
    bucket (search_part_numbers_on_rockauto parts st).2 =
      store_all new (bucket st) /\
    ((search_part_numbers_on_rockauto parts st).1 = Return tt ->
     new = uploads c).
Proof.
  destruct (lookup_loop_run parts st)
    as (c & st1 & Hrun & _ & _ & Hmulti & _ & Hb & Hl & _).
  destruct (put_all_spec (uploads c) st1)
    as (new & Hpre & Hlog & Hbucket & _ & _ & Hret).
  exists c, st1, new. rewrite (search_eq _ _ _ _ Hrun).
  by rewrite Hlog, Hbucket, Hb, Hl.
Qed.

End Handler.

Lemma store_all_app ups1 ups2 (m : gmap string string) :
  store_all (ups1 ++ ups2) m = store_all ups2 (store_all ups1 m).
Proof. apply fold_left_app. Qed.

(** * The properties of the specification *)

(** C1: on every list of part records and in every world the lookup loop
    of [search_part_numbers_on_rockauto] runs to its end, and its raw
    results hold exactly one row per part record, in the order of the
    input, each row carrying the two part numbers of its record; these are
    the raw results the aggregator then writes out. *)
Theorem raw_results_one_row_per_record
  {World : Type} {Ext : Externals World}
  (part_numbers : list PartRecord) (st : @State World) :
  exists c st',
    lookup_loop part_numbers (mkCollected [] [] []) st = (Return c, st') /\
    search_part_numbers_on_rockauto part_numbers st = write_out c st' /\
    length (raw_results c) = length part_numbers /\
    map (fun r => (SupplierPartNumber r, Partnumber r)) (raw_results c) =
      map (fun p => (vendor_part_number p, part_number p)) part_numbers.
Proof.
  destruct (lookup_loop_run part_numbers st)
    as (c & st' & Hrun & Hmap & _).
  exists c, st'. split; [exact Hrun |]. split; [| split; [| exact Hmap]].
  - unfold search_part_numbers_on_rockauto, bind. by rewrite Hrun.
  - apply (f_equal length) in Hmap. by rewrite !length_map in Hmap.
Qed.

(** C2, as the code has it: the not-found entries are the vendor part
    numbers of the raw rows that carry the sentinel, one entry per such
    row and in the same order.  So a row with cost "Not Found" always has
    an entry "No results found" for its vendor part number, every entry
    has such a row, and when no vendor part number occurs twice in the
    input a row carries the sentinel exactly when an entry names its
    vendor part number. *)
Theorem not_found_entries_are_sentinel_rows
  {World : Type} {Ext : Externals World}
  (part_numbers : list PartRecord) (st : @State World) :
  exists c st',
    lookup_loop part_numbers (mkCollected [] [] []) st = (Return c, st') /\
    not_found c =
      map SupplierPartNumber (List.filter is_sentinel (raw_results c)) /\
    (forall r, In r (raw_results c) -> Cost r = NOT_FOUND ->
       In (mkError (SupplierPartNumber r) "No results found")
          (not_found_entries (not_found c))) /\
    (forall e, In e (not_found_entries (not_found c)) ->
       Error e = "No results found" /\
       exists r, In r (raw_results c) /\
                 SupplierPartNumber r = VendorPartNumber e /\
                 Cost r = NOT_FOUND) /\
    (NoDup (map vendor_part_number part_numbers) -> sentinel_iff_entry c).
Proof.
  destruct (lookup_loop_run part_numbers st)
    as (c & st' & Hrun & Hmap & _ & _ & Hnf & _).
  exists c, st'. split; [exact Hrun |]. split; [exact Hnf |].
  assert (Hfwd : forall r, In r (raw_results c) -> Cost r = NOT_FOUND ->
            In (mkError (SupplierPartNumber r) "No results found")
               (not_found_entries (not_found c))).
  { intros r Hr Hc. unfold not_found_entries. rewrite Hnf.
    apply (in_map (fun v => mkError v "No results found")).
    apply (in_map SupplierPartNumber), filter_In. split; [exact Hr |].
    by apply bool_decide_eq_true. }
  assert (Hbwd : forall e, In e (not_found_entries (not_found c)) ->
            Error e = "No results found" /\
            exists r, In r (raw_results c) /\
                      SupplierPartNumber r = VendorPartNumber e /\
                      Cost r = NOT_FOUND).
  { intros e He. unfold not_found_entries in He. rewrite Hnf in He.
    apply in_map_iff in He as (v & <- & Hv).
    apply in_map_iff in Hv as (r & <- & Hr).
    apply filter_In in Hr as [Hr Hs]. split; [reflexivity |].
    exists r. repeat split; [exact Hr |]. by apply bool_decide_eq_true in Hs. }
  split; [exact Hfwd |]. split; [exact Hbwd |].
  intros Hnd r Hr. split; [by apply Hfwd |].
  intros He. apply Hbwd in He as (_ & r' & Hr' & Hsame & Hc). simpl in Hsame.
  assert (Hvpn : map SupplierPartNumber (raw_results c) =
                 map vendor_part_number part_numbers).
  { apply (f_equal (map fst)) in Hmap. by rewrite !map_map in Hmap. }
  rewrite <- Hvpn in Hnd.
  by rewrite <- (NoDup_map_inj_on _ _ _ _ Hnd Hr' Hr Hsame).
Qed.

(** Two different vendor part numbers, the first request timing out. *)
Lemma not_found_entries_are_sentinel_rows_witness :
  exists c st',
    lookup_loop [mkPart "A" "P1"; mkPart "B" "P2"] (mkCollected [] [] [])
      (Scripted.start Scripted.flaky) = (Return c, st') /\
    sentinel_iff_entry c.
Proof.
  destruct (not_found_entries_are_sentinel_rows
              [mkPart "A" "P1"; mkPart "B" "P2"] (Scripted.start Scripted.flaky))
    as (c & st' & Hrun & _ & _ & _ & Hiff).
  exists c, st'. split; [exact Hrun |]. apply Hiff.
  apply (bool_decide_unpack _). vm_compute. exact I.
Defined.

(** C2 as it is written fails on a vendor part number that occurs twice
    when the first request times out and the second finds a price: the
    second row carries the price "42.95", and an entry "No results found"
    for its vendor part number "A" is recorded all the same. *)
Lemma repeated_vendor_part_number_breaks_iff :
  exists c st',
    lookup_loop Scripted.twice (mkCollected [] [] [])
      (Scripted.start Scripted.flaky) = (Return c, st') /\
    raw_results c = [mkPrice "A" "P1" "Not Found"; mkPrice "A" "P2" "42.95"] /\
    not_found_entries (not_found c) = [mkError "A" "No results found"] /\
    ~ sentinel_iff_entry c.
Proof.
  exists (mkCollected [mkPrice "A" "P1" "Not Found"; mkPrice "A" "P2" "42.95"]
            [] ["A"]).
  eexists. split; [vm_compute; reflexivity |].
  split; [reflexivity |]. split; [reflexivity |].
  intros Hiff.
  destruct (Hiff (mkPrice "A" "P2" "42.95")) as [_ Hback].
  - right. by left.
  - discriminate Hback. by left.
Qed.

(** C3: cleaning a list of price rows whose costs are the sentinel or
    decimal numbers gives exactly the rows whose cost is not the sentinel,
    in their order and unchanged; the raw results of every run are such a
    list; extracting the price pattern from what an extraction returned
    gives the same text again; and cleaning the rows with costs "19.99",
    "Not Found", "5" gives the rows with costs "19.99" and "5". *)
Theorem cleaning_keeps_priced_rows :
  (forall raw : list PriceRow,
      Forall (fun r => valid_cost (Cost r) = true) raw ->
      clean raw = List.filter priced raw) /\
  (forall (World : Type) (Ext : Externals World)
          (part_numbers : list PartRecord) (st : @State World),
      exists c st',
        lookup_loop part_numbers (mkCollected [] [] []) st = (Return c, st') /\
        clean (raw_results c) = List.filter priced (raw_results c)) /\
  (forall s g : string,
      re_search_price s = Some g -> re_search_price g = Some g) /\
  clean Scripted.three_rows = [mkPrice "A" "P1" "19.99"; mkPrice "C" "P3" "5"].
Proof.
  split; [exact clean_valid |]. split; [| split].
  - intros World Ext parts st.
    destruct (lookup_loop_run parts st) as (c & st' & Hrun & _ & Hvalid & _).
    exists c, st'. split; [exact Hrun | by apply clean_valid].
  - exact search_idempotent.
  - vm_compute. reflexivity.
Qed.

(** The three rows of the example have costs the data model allows. *)
Lemma cleaning_keeps_priced_rows_witness :
  clean Scripted.three_rows = List.filter priced Scripted.three_rows.
Proof.
  apply (proj1 cleaning_keeps_priced_rows).
  repeat constructor; vm_compute; reflexivity.
Defined.

(** C4, as the code has it: what [fetch_price] returns is decided by the
    answer to its one request; on an answer without error status it takes
    the first [span] element in document order that lies inside a [span]
    whose id starts with "dprice", and returns the first text in it that
    the price pattern matches, or nothing when there is no such element or
    no match.  When the parsed page holds
    [<span id="dprice123"><span>$42.95 each</span></span>] and nothing
    before it selects an element, the result is "42.95". *)
Theorem fetch_price_takes_first_nested_span
  {World : Type} {Ext : Externals World} (vpn : string) (st : @State World) :
  (fetch_price vpn st).1 =
    Return
      match (requests_get (search_url vpn) HEADERS 10 (world st)).1 with
      | inl _ => None
      | inr resp =>
          if (400 <=? status_code resp)%Z && (status_code resp <? 600)%Z
          then None
          else
            match select_one (BeautifulSoup (text resp)) with
            | None => None
            | Some el => re_search_price (get_text el)
            end
      end /\
  (forall soup : list node,
      select_one soup =
      fst <$> head (List.filter (fun e => e.2 && matches any_span e.1)
                      (document_order price_span soup))) /\
  (forall resp : Response,
      (requests_get (search_url vpn) HEADERS 10 (world st)).1 = inr resp ->
      ((status_code resp < 400)%Z \/ (600 <= status_code resp)%Z) ->
      first_reached price_span any_span price_fragment false
        (BeautifulSoup (text resp)) ->
      (fetch_price vpn st).1 = Return (Some "42.95")).
Proof.
  split; [| split].
  - rewrite fetch_price_eq. simpl.
    by destruct (requests_get _ _ _ _) as [[e|resp] w].
  - intros soup. apply select_forest_document_order.
  - intros resp Hanswer Hstatus Hreach.
    rewrite fetch_price_eq. simpl. rewrite Hanswer. unfold price_of_answer, failed.
    replace ((400 <=? status_code resp)%Z && (status_code resp <? 600)%Z)
      with false by (symmetry; apply andb_false_iff; lia).
    destruct (first_reached_select _ _ _ _ _ Hreach) as [b Hb].
    { intros b. destruct (price_fragment_selected b) as (el & -> & _). by eexists. }
    unfold select_one. rewrite Hb.
    destruct (price_fragment_selected b) as (el & -> & ->). reflexivity.
Qed.

(** A page that holds the fragment inside [html], [body] and [div], behind
    a heading. *)
Lemma fetch_price_takes_first_nested_span_witness :
  (fetch_price "A" (Scripted.start Scripted.nested_site)).1 =
    Return (Some "42.95").
Proof.
  apply (proj2 (proj2 (fetch_price_takes_first_nested_span "A"
                         (Scripted.start Scripted.nested_site)))
           (mkResponse 200 Scripted.page_nested)).
  - reflexivity.
  - left. simpl. lia.
  - change (BeautifulSoup (text (mkResponse 200 Scripted.page_nested)))
      with Scripted.soup_nested.
    apply (reached_below _ _ _ false [] "html" empty _ []); [done | done |].
    apply (reached_below _ _ _ _ [] "body" empty _ []); [done | done |].
    apply (reached_below _ _ _ _ [] "div" empty _ []); [done | done |].
    apply (reached_here _ _ _ _ [Tag "h1" empty [NavigableString "Search"]] []).
    reflexivity.
Defined.

(** C4 as it is written fails on a page that carries the price in a [div]:
    the answer has status 200, the first element whose id starts with
    "dprice" is the [div], its first nested element with text holds "$5",
    and [fetch_price] returns nothing, because the selector asks for a
    [span] with that id. *)
Lemma price_inside_div_is_not_found :
  (requests_get (search_url "A") HEADERS 10 Scripted.div_site).1 =
    inr (mkResponse 200 Scripted.page_div) /\
  BeautifulSoup Scripted.page_div = Scripted.soup_div /\
  worded_price Scripted.soup_div = Some "5" /\
  (fetch_price "A" (Scripted.start Scripted.div_site)).1 = Return None /\
  (fetch_price "A" (Scripted.start Scripted.div_site)).1 <>
    Return (worded_price (BeautifulSoup Scripted.page_div)).
Proof.
  repeat split; try (vm_compute; reflexivity).
  vm_compute. discriminate.
Qed.

(** C5: when the request raises (a network error, a timeout) or is
    answered with an error status, 400 to 599, which is where
    [raise_for_status] raises, [fetch_price] returns with no price in the
    state the request left, and no exception leaves it. *)
Theorem fetch_price_failure_is_not_found
  {World : Type} {Ext : Externals World} (vpn : string) (st : @State World) :
  ((exists e, (requests_get (search_url vpn) HEADERS 10 (world st)).1 = inl e) \/
   (exists resp,
       (requests_get (search_url vpn) HEADERS 10 (world st)).1 = inr resp /\
       (400 <= status_code resp < 600)%Z)) ->
  fetch_price vpn st =
    (Return None,
     set_world (requests_get (search_url vpn) HEADERS 10 (world st)).2 st).
Proof.
  intros Hfail. rewrite fetch_price_eq. do 2 f_equal.
  destruct Hfail as [[e He] | (resp & Hr & Hstatus)].
  - by rewrite He.
  - rewrite Hr. unfold price_of_answer, failed.
    replace ((400 <=? status_code resp)%Z && (status_code resp <? 600)%Z)
      with true by (symmetry; apply andb_true_iff; lia).
    reflexivity.
Qed.

(** A timeout, and a status 500 whose body carries a price. *)
Lemma fetch_price_failure_is_not_found_witness :
  (fetch_price "A" (Scripted.start Scripted.flaky)).1 = Return None /\
  (fetch_price "A" (Scripted.start Scripted.error_site)).1 = Return None.
Proof.
  split.
  - rewrite (fetch_price_failure_is_not_found "A" (Scripted.start Scripted.flaky));
      [reflexivity |].
    left. exists Scripted.Timeout. reflexivity.
  - rewrite (fetch_price_failure_is_not_found "A"
               (Scripted.start Scripted.error_site)); [reflexivity |].
    right. exists (mkResponse 500 Scripted.page_price).
    split; [reflexivity | simpl; lia].
Defined.

(** C6 does not hold of the code: the connection is closed on the path
    that returns, and on no other.  When the warehouse refuses the query,
    [fetch_part_numbers] raises and leaves one connection and one cursor
    open. *)
Theorem connection_left_open_when_query_fails :
  fetch_part_numbers (Scripted.start Scripted.query_fails) =
    (Raise (SnowflakeError "ProgrammingError"),
     mkState Scripted.query_fails empty [] 1 1 0).
Proof. vm_compute. reflexivity. Qed.

(** C7: when the reset has gone through and the warehouse reader raises,
    on the connection or on the query, the handler raises the same
    exception and returns no summary; the uploads of the run are the four
    header-only resets and nothing else, and each of the four keys holds
    its header row. *)
Theorem warehouse_failure_leaves_header_only_files
  {World : Type} {Ext : Externals World}
  (st st1 : @State World) (e : exn) :
  clear_all_csvs st = (Return tt, st1) ->
  (fetch_part_numbers st1).1 = Raise e ->
  (lambda_handler st).1 = Raise e /\
  put_log (lambda_handler st).2 =
    put_log st ++
      [(multi_result_log_csv, csv_row ["VendorPartNumber"; "Error"]);
       (not_found_log_csv, csv_row ["VendorPartNumber"; "Error"]);
       (output_csv_file, csv_row ["SupplierPartNumber"; "Partnumber"; "Cost"]);
       (cleaned_csv_file, csv_row ["SupplierPartNumber"; "Partnumber"; "Cost"])] /\
  bucket (lambda_handler st).2 !! multi_result_log_csv =
    Some (csv_row ["VendorPartNumber"; "Error"]) /\
  bucket (lambda_handler st).2 !! not_found_log_csv =
    Some (csv_row ["VendorPartNumber"; "Error"]) /\
  bucket (lambda_handler st).2 !! output_csv_file =
    Some (csv_row ["SupplierPartNumber"; "Partnumber"; "Cost"]) /\
  bucket (lambda_handler st).2 !! cleaned_csv_file =
    Some (csv_row ["SupplierPartNumber"; "Partnumber"; "Cost"]).
Proof.
  intros Hclear Hfail.
  pose proof (clear_all_csvs_returns _ _ Hclear) as [Hlog Hbucket].
  pose proof (fetch_part_numbers_store st1) as [Hb Hl].
  unfold lambda_handler, bind. rewrite Hclear.
  destruct (fetch_part_numbers st1) as [[parts|e'] st2]; simpl in *;
    [discriminate |].
  injection Hfail as ->. rewrite Hl, Hb, Hlog, Hbucket.
  split; [reflexivity |]. split; [reflexivity |]. apply resets_lookup.
Qed.

(** The store accepts the reset, the warehouse refuses the query. *)
Lemma warehouse_failure_leaves_header_only_files_witness :
  (lambda_handler (Scripted.start Scripted.query_fails)).1 =
    Raise (SnowflakeError "ProgrammingError") /\
  bucket (lambda_handler (Scripted.start Scripted.query_fails)).2
    !! not_found_log_csv = Some (csv_row ["VendorPartNumber"; "Error"]).
Proof.
  destruct (warehouse_failure_leaves_header_only_files
              (Scripted.start Scripted.query_fails)
              (clear_all_csvs (Scripted.start Scripted.query_fails)).2
              (SnowflakeError "ProgrammingError"))
    as (Hr & _ & _ & Hnf & _).
  - vm_compute. reflexivity.
  - vm_compute. reflexivity.
  - split; [exact Hr | exact Hnf].
Defined.

(** C8: in every run the list of multiple-result entries is empty when
    the lookup loop ends, so no record is classified "Multiple results
    found"; the aggregator uploads nothing under the key of the
    multi-result log, and the object under that key is what it was before
    the aggregator ran. *)
Theorem multi_result_entries_always_empty
  {World : Type} {Ext : Externals World}
  (part_numbers : list PartRecord) (st : @State World) :
  exists c st1 new,
    lookup_loop part_numbers (mkCollected [] [] []) st = (Return c, st1) /\
    multi_errors c = [] /\
    multi_entries (multi_errors c) = [] /\
    put_log (search_part_numbers_on_rockauto part_numbers st).2 =
      put_log st ++ new /\
    Forall (fun kb => kb.1 <> multi_result_log_csv) new /\
    bucket (search_part_numbers_on_rockauto part_numbers st).2
      !! multi_result_log_csv = bucket st !! multi_result_log_csv.
Proof.
  destruct (search_uploads part_numbers st)
    as (c & st1 & new & Hrun & Hmulti & Hpre & Hlog & Hbucket & _).
  exists c, st1, new.
  assert (Hkeys : Forall (fun kb => kb.1 <> multi_result_log_csv) new)
    by (eapply Forall_prefix; [exact Hpre | by apply uploads_no_multi]).
  repeat split; try done.
  - by rewrite Hmulti.
  - rewrite Hbucket. by apply store_all_lookup_ne.
Qed.

(** C9: the aggregator names the not-found log only when it has a
    not-found entry, and never the multi-result log.  Its uploads are, in
    this order, the not-found log if there is an entry, the raw table and
    the cleaned table, stopping only where the store refuses one.  So when
    every lookup found a price nothing is uploaded under the key of the
    not-found log and the object there is what it was before the
    aggregator ran; the same holds of the multi-result log in every run;
    and a run of the aggregator that returns has written the raw and the
    cleaned table, whatever their rows.  In a run of the handler whose
    reset and warehouse read went through, both logs therefore still hold
    their header row alone. *)
Theorem error_logs_written_only_when_nonempty
  {World : Type} {Ext : Externals World}
  (part_numbers : list PartRecord) (st : @State World) :
  exists c st1 new,
    lookup_loop part_numbers (mkCollected [] [] []) st = (Return c, st1) /\
    uploads c =
      (if bool_decide (not_found c = []) then []
       else [(not_found_log_csv, error_csv (not_found_entries (not_found c)))]) ++
      [(output_csv_file, price_csv (raw_results c));
       (cleaned_csv_file, price_csv (clean (raw_results c)))] /\
    put_log (search_part_numbers_on_rockauto part_numbers st).2 =
      put_log st ++ new /\
    new `prefix_of` uploads c /\
    (not_found c = [] ->
       Forall (fun kb => kb.1 <> not_found_log_csv) new /\
       bucket (search_part_numbers_on_rockauto part_numbers st).2
         !! not_found_log_csv = bucket st !! not_found_log_csv) /\
    (Forall (fun kb => kb.1 <> multi_result_log_csv) new /\
     bucket (search_part_numbers_on_rockauto part_numbers st).2
       !! multi_result_log_csv = bucket st !! multi_result_log_csv) /\
    ((search_part_numbers_on_rockauto part_numbers st).1 = Return tt ->
       new = uploads c /\
       bucket (search_part_numbers_on_rockauto part_numbers st).2
         !! output_csv_file = Some (price_csv (raw_results c)) /\
       bucket (search_part_numbers_on_rockauto part_numbers st).2
         !! cleaned_csv_file = Some (price_csv (clean (raw_results c)))) /\
    (forall st0 st_reset : @State World,
        clear_all_csvs st0 = (Return tt, st_reset) ->
        fetch_part_numbers st_reset = (Return part_numbers, st) ->
        (lambda_handler st0).2 =
          (search_part_numbers_on_rockauto part_numbers st).2 /\
        bucket (lambda_handler st0).2 !! multi_result_log_csv =
          Some (csv_row ["VendorPartNumber"; "Error"]) /\
        (not_found c = [] ->
         bucket (lambda_handler st0).2 !! not_found_log_csv =
           Some (csv_row ["VendorPartNumber"; "Error"]))).
Proof.
  destruct (search_uploads part_numbers st)
    as (c & st1 & new & Hrun & Hmulti & Hpre & Hlog & Hbucket & Hret).
  exists c, st1, new.
  assert (Hshape : uploads c =
      (if bool_decide (not_found c = []) then []
       else [(not_found_log_csv, error_csv (not_found_entries (not_found c)))]) ++
      [(output_csv_file, price_csv (raw_results c));
       (cleaned_csv_file, price_csv (clean (raw_results c)))])
    by (unfold uploads; by rewrite Hmulti).
  assert (Hmk : Forall (fun kb => kb.1 <> multi_result_log_csv) new)
    by (eapply Forall_prefix; [exact Hpre | by apply uploads_no_multi]).
  assert (Hmb : bucket (search_part_numbers_on_rockauto part_numbers st).2
                  !! multi_result_log_csv = bucket st !! multi_result_log_csv)
    by (rewrite Hbucket; by apply store_all_lookup_ne).
  assert (Hnb : not_found c = [] ->
      Forall (fun kb => kb.1 <> not_found_log_csv) new /\
      bucket (search_part_numbers_on_rockauto part_numbers st).2
        !! not_found_log_csv = bucket st !! not_found_log_csv).
  { intros Hnf.
    assert (Hk : Forall (fun kb => kb.1 <> not_found_log_csv) new)
      by (eapply Forall_prefix; [exact Hpre | by apply uploads_no_not_found]).
    split; [exact Hk |]. rewrite Hbucket. by apply store_all_lookup_ne. }
  split; [exact Hrun |]. split; [exact Hshape |]. split; [exact Hlog |].
  split; [exact Hpre |]. split; [exact Hnb |]. split; [by split |]. split.
  - intros Hr. specialize (Hret Hr). subst new. split; [reflexivity |].
    rewrite Hbucket, Hshape, store_all_app. unfold store_all at 1 3.
    cbn [fold_left fst snd]. split.
    + rewrite lookup_insert_ne by done. apply lookup_insert_eq.
    + apply lookup_insert_eq.
  - intros st0 st_reset Hclear Hfetch.
    pose proof (clear_all_csvs_returns _ _ Hclear) as [_ Hb0].
    pose proof (fetch_part_numbers_store st_reset) as [Hb1 _].
    rewrite Hfetch in Hb1. simpl in Hb1.
    pose proof (resets_lookup (bucket st0)) as (Hm & Hn & _).
    assert (Hfinal : (lambda_handler st0).2 =
                     (search_part_numbers_on_rockauto part_numbers st).2).
    { unfold lambda_handler, bind. rewrite Hclear, Hfetch.
      by destruct (search_part_numbers_on_rockauto part_numbers st)
        as [[[]|e] st']. }
    rewrite Hfinal. split; [reflexivity |]. split.
    + by rewrite Hmb, Hb1, Hb0.
    + intros Hnf. destruct (Hnb Hnf) as [_ ->]. by rewrite Hb1, Hb0.
Qed.

(** A full run of the handler in which both lookups find a price. *)
Lemma error_logs_written_only_when_nonempty_witness :
  bucket (lambda_handler (Scripted.start Scripted.all_priced)).2
    !! not_found_log_csv = Some (csv_row ["VendorPartNumber"; "Error"]).
Proof.
  destruct (error_logs_written_only_when_nonempty
              (map (fun r => mkPart r.1 r.2) Scripted.two_rows)
              (fetch_part_numbers
                 (clear_all_csvs (Scripted.start Scripted.all_priced)).2).2)
    as (c & st1 & new & Hrun & _ & _ & _ & _ & _ & _ & Hhandler).
  destruct (Hhandler (Scripted.start Scripted.all_priced)
              (clear_all_csvs (Scripted.start Scripted.all_priced)).2)
    as (_ & _ & Hnf).
  - vm_compute. reflexivity.
  - vm_compute. reflexivity.
  - apply Hnf. vm_compute in Hrun. by injection Hrun as <- _.
Defined.

(** C10: in the raw results of every run each cost is either the sentinel
    "Not Found" or a text that the price pattern matches in full, never
    both; so the search of the cleaning step succeeds on a raw row exactly
    when its cost is not the sentinel. *)
Theorem raw_cost_is_sentinel_or_decimal
  {World : Type} {Ext : Externals World}
  (part_numbers : list PartRecord) (st : @State World) :
  exists c st',
    lookup_loop part_numbers (mkCollected [] [] []) st = (Return c, st') /\
    Forall (fun r => Cost r = NOT_FOUND \/
                     Re.fullmatch price_pattern (Cost r) = true)
           (raw_results c) /\
    Re.fullmatch price_pattern NOT_FOUND = false /\
    Forall (fun r => is_Some (re_search_price (Cost r)) <-> Cost r <> NOT_FOUND)
           (raw_results c).
Proof.
  destruct (lookup_loop_run part_numbers st)
    as (c & st' & Hrun & _ & Hvalid & _).
  exists c, st'. split; [exact Hrun |].
  split; [| split; [exact sentinel_no_fullmatch |]].
  - eapply Forall_impl; [exact Hvalid |]. intros r. apply valid_cost_cases.
  - eapply Forall_impl; [exact Hvalid |]. intros r Hr. simpl in Hr.
    rewrite (valid_cost_search _ Hr). case_bool_decide as Hc.
    + split; [by intros [? ?] | done].
    + split; [done | by eexists].
Qed.


(** * Further properties of the code *)

(** ** The search, on any text *)

Lemma price_prefix_none s :
  price_prefix s = None <->
  match s with
  | String c _ => Re.is_digit c = false
  | EmptyString => True
  end.
Proof.
  destruct s as [|c s]; [done |]. unfold price_prefix.
  destruct (Re.is_digit c); [| done].
  destruct ((Re.consume c (Re.span Re.Digit s)).2) as [|p [|c2 t]];
    [done | done |].
  by destruct (Ascii.eqb p "." && Re.is_digit c2).
Qed.

Lemma span_rest_no_digit s :
  match (Re.span Re.Digit s).2 with
  | String c _ => Re.is_digit c = false
  | EmptyString => True
  end.
Proof.
  induction s as [|c s IH]; simpl; [done |].
  destruct (Re.is_digit c) eqn:Hc; simpl; [exact IH | exact Hc].
Qed.

Lemma price_prefix_rest s g r :
  price_prefix s = Some (g, r) ->
  match r with
  | String c _ => Re.is_digit c = false
  | EmptyString => True
  end.
Proof.
  destruct s as [|c s]; [discriminate |]. unfold price_prefix.
  destruct (Re.is_digit c); [| discriminate].
  pose proof (span_rest_no_digit s) as Hrest.
  destruct (Re.span Re.Digit s) as [d1 r1]. simpl in *.
  destruct r1 as [|p [|c2 t]]; [by intros [= _ <-] | by intros [= _ <-] |].
  destruct (Ascii.eqb p "." && Re.is_digit c2).
  - pose proof (span_rest_no_digit t) as Hrest2.
    destruct (Re.span Re.Digit t) as [d2 r2]. simpl in *. by intros [= _ <-].
  - by intros [= _ <-].
Qed.

Lemma search_none_iff s : re_search_price s = None <-> has_digit s = false.
Proof.
  unfold re_search_price, has_digit.
  induction s as [|c s IH]; rewrite search_unfold, re_match_price.
  - done.
  - cbn [list_ascii_of_string existsb].
    destruct (price_prefix (String c s)) as [[g r]|] eqn:Hp; cbn [fmap option_fmap option_map].
    + assert (Hc : Re.is_digit c = true).
      { destruct (Re.is_digit c) eqn:Hc; [done |].
        by rewrite (proj2 (price_prefix_none (String c s)) Hc) in Hp. }
      rewrite Hc. simpl. split; intros H; discriminate H.
    + apply price_prefix_none in Hp. rewrite Hp. simpl. exact IH.
Qed.

(** X1: the search for a price fails exactly on the texts that hold no
    digit. *)
Theorem search_fails_iff_no_digit (s : string) :
  re_search_price s = None <-> has_digit s = false.
Proof. apply search_none_iff. Qed.

(** X2: what the search returns is a piece of the text: it starts at the
    first digit of the text, it is a decimal number, and the text does not
    go on with a digit behind it. *)
Theorem search_finds_leftmost_decimal (s g : string) :
  re_search_price s = Some g ->
  exists pre post,
    s = pre +:+ g +:+ post /\
    has_digit pre = false /\
    decimal_string g /\
    match post with
    | String c _ => Re.is_digit c = false
    | EmptyString => True
    end.
Proof.
  unfold re_search_price, has_digit. revert g.
  induction s as [|c s IH]; intros g; rewrite search_unfold, re_match_price.
  - discriminate.
  - destruct (price_prefix (String c s)) as [[g' r]|] eqn:Hp; simpl.
    + intros [= <-]. exists "", r.
      pose proof (price_prefix_rest _ _ _ Hp) as Hrest.
      apply price_prefix_sound in Hp as [Hdec Happ].
      by rewrite append_nil_l, Happ.
    + apply price_prefix_none in Hp. intros Hs.
      destruct (IH g Hs) as (pre & post & -> & Hpre & Hdec & Hpost).
      exists (String c pre), post. simpl. by rewrite Hp, Hpre.
Qed.

(** The first digit of "ab 12. 7.5" opens the match "12". *)
Lemma search_finds_leftmost_decimal_witness :
  exists pre post,
    "ab 12. 7.5" = pre +:+ "12" +:+ post /\ has_digit pre = false /\
    decimal_string "12" /\
    match post with
    | String c _ => Re.is_digit c = false
    | EmptyString => True
    end.
Proof.
  apply (search_finds_leftmost_decimal "ab 12. 7.5" "12").
  vm_compute. reflexivity.
Defined.

(** ** The cleaning step, on any rows *)

Lemma clean_app raw1 raw2 : clean (raw1 ++ raw2) = clean raw1 ++ clean raw2.
Proof.
  induction raw1 as [|r raw1 IH]; [reflexivity |].
  rewrite <- app_comm_cons, !clean_cons.
  destruct (re_search_price (Cost r)); by rewrite IH.
Qed.

Lemma decimal_priced r : decimal_string (Cost r) -> valid_cost (Cost r) = true.
Proof.
  intros Hd. unfold valid_cost.
  by rewrite (proj2 (fullmatch_decimal _) Hd), orb_true_r.
Qed.

Lemma clean_fixed raw :
  Forall (fun r => decimal_string (Cost r)) raw -> clean raw = raw.
Proof.
  induction 1 as [|r raw Hr _ IH]; [reflexivity |].
  rewrite clean_cons, (search_of_decimal _ Hr), IH. by destruct r.
Qed.

(** X3: cleaning is idempotent on every list of rows, whatever their
    costs, and the cleaning of a list put together from two is the two
    cleanings put together. *)
Theorem clean_idempotent_and_appends (raw1 raw2 : list PriceRow) :
  clean (clean raw1) = clean raw1 /\
  clean (raw1 ++ raw2) = clean raw1 ++ clean raw2.
Proof.
  split; [| apply clean_app]. apply clean_fixed, clean_costs_decimal.
Qed.

(** X4: on every list of rows, also with costs that are no prices yet, the
    cleaning keeps exactly the rows whose cost holds a digit, in their
    order and with their two part numbers, drops the others, and leaves a
    decimal number as the cost of every row it keeps. *)
Theorem clean_keeps_rows_with_a_digit (raw : list PriceRow) :
  map (fun r => (SupplierPartNumber r, Partnumber r)) (clean raw) =
    map (fun r => (SupplierPartNumber r, Partnumber r))
        (List.filter (fun r => has_digit (Cost r)) raw) /\
  Forall (fun r => decimal_string (Cost r)) (clean raw) /\
  Forall (fun r => exists r0, In r0 raw /\
                     SupplierPartNumber r = SupplierPartNumber r0 /\
                     Partnumber r = Partnumber r0 /\
                     re_search_price (Cost r0) = Some (Cost r))
         (clean raw) /\
  length (clean raw) <= length raw.
Proof.
  split; [| split; [apply clean_costs_decimal | split]].
  - induction raw as [|r raw IH]; [reflexivity |].
    rewrite clean_cons. cbn [List.filter].
    destruct (re_search_price (Cost r)) as [g|] eqn:Hg.
    + destruct (has_digit (Cost r)) eqn:Hd.
      * simpl. by rewrite IH.
      * apply search_none_iff in Hd. congruence.
    + apply search_none_iff in Hg. by rewrite Hg.
  - induction raw as [|r raw IH]; [constructor |].
    rewrite clean_cons.
    assert (Htl : Forall (fun r1 => exists r0, In r0 (r :: raw) /\
                     SupplierPartNumber r1 = SupplierPartNumber r0 /\
                     Partnumber r1 = Partnumber r0 /\
                     re_search_price (Cost r0) = Some (Cost r1)) (clean raw)).
    { eapply Forall_impl; [exact IH |]. intros r1 (r0 & Hin & H).
      exists r0. split; [by right | exact H]. }
    destruct (re_search_price (Cost r)) as [g|] eqn:Hg; [| exact Htl].
    constructor; [| exact Htl]. exists r. simpl. by split; [left |].
  - induction raw as [|r raw IH]; [done |].
    rewrite clean_cons. destruct (re_search_price (Cost r)); simpl; lia.
Qed.

(** ** The aggregator, further *)

(** X5: in every run the raw rows split into the cleaned rows and the
    not-found entries: the cleaned table has one row per priced lookup,
    the not-found list one entry per failed lookup, and together they are
    as many as the part records. *)
Theorem raw_rows_split_into_cleaned_and_not_found
  {World : Type} {Ext : Externals World}
  (part_numbers : list PartRecord) (st : @State World) :
  exists c st',
    lookup_loop part_numbers (mkCollected [] [] []) st = (Return c, st') /\
    length (clean (raw_results c)) + length (not_found c) =
      length part_numbers /\
    length (not_found_entries (not_found c)) = length (not_found c) /\
    map (fun r => (SupplierPartNumber r, Partnumber r)) (clean (raw_results c)) =
      map (fun r => (SupplierPartNumber r, Partnumber r))
          (List.filter priced (raw_results c)).
Proof.
  destruct (lookup_loop_run part_numbers st)
    as (c & st' & Hrun & Hmap & Hvalid & _ & Hnf & _).
  exists c, st'. split; [exact Hrun |].
  rewrite (clean_valid _ Hvalid), Hnf. unfold not_found_entries.
  rewrite !length_map. split; [| done].
  apply (f_equal length) in Hmap. rewrite !length_map in Hmap.
  rewrite <- Hmap, <- (List.filter_length priced (raw_results c)).
  f_equal. f_equal. apply List.filter_ext. intros r. unfold priced.
  by rewrite negb_involutive.
Qed.

(** X6: the lookup loop waits one second after every lookup, whatever its
    outcome, so as many seconds as there are part records; it uploads
    nothing and leaves the warehouse connections as they are. *)
Theorem lookup_loop_sleeps_once_per_record
  {World : Type} {Ext : Externals World}
  (part_numbers : list PartRecord) (st : @State World) :
  exists c st',
    lookup_loop part_numbers (mkCollected [] [] []) st = (Return c, st') /\
    slept st' = slept st + length part_numbers /\
    bucket st' = bucket st /\ put_log st' = put_log st /\
    open_conns st' = open_conns st /\ open_cursors st' = open_cursors st.
Proof.
  destruct (lookup_loop_spec part_numbers (mkCollected [] [] []) st)
    as (rows & st' & Hrun & _ & _ & Hsame & Hslept).
  eexists _, st'. split; [exact Hrun |]. split; [exact Hslept | exact Hsame].
Qed.

(** ** When the store refuses *)
Section Refusals.
Context {World : Type} `{Ext : Externals World}.
Implicit Types (st : @State World) (parts : list PartRecord).


Lemma lambda_handler_returns_inv st s st' :
  lambda_handler st = (Return s, st') ->
  exists st1 parts st2 c st3,
    clear_all_csvs st = (Return tt, st1) /\
    fetch_part_numbers st1 = (Return parts, st2) /\
    lookup_loop parts (mkCollected [] [] []) st2 = (Return c, st3) /\
    multi_errors c = [] /\
    same_store st2 st3 /\
    put_all (uploads c) st3 = (Return tt, st') /\
    s = mkSummary 200
          (json_dumps_summary "RockAuto scrape complete" (length parts)).
Proof.
  unfold lambda_handler, bind, ret.
  destruct (clear_all_csvs st) as [[[]|e] st1] eqn:H1; [| discriminate].
  destruct (fetch_part_numbers st1) as [[parts|e] st2] eqn:H2; [| discriminate].
  destruct (lookup_loop_run parts st2)
    as (c & st3 & Hrun & _ & _ & Hmulti & _ & Hsame).
  rewrite (search_eq _ _ _ _ Hrun).
  destruct (put_all (uploads c) st3) as [[[]|e] st4] eqn:H4; [| discriminate].
  intros [= <- <-]. exists st1, parts, st2, c, st3. repeat split; try done.
  all: apply Hsame.
Qed.

Lemma fetch_part_numbers_returns_inv st parts st' :
  fetch_part_numbers st = (Return parts, st') ->
  exists rows w1 w2,
    snowflake_connect SF_USER SF_PASSWORD SF_ACCOUNT SF_WAREHOUSE SF_ROLE
      (world st) = (None, w1) /\
    cursor_execute QUERY w1 = (None, w2) /\
    cursor_fetchall w2 = (inr rows, world st') /\
    parts = map (fun r => mkPart r.1 r.2) rows /\
    st' = mkState (world st') (bucket st) (put_log st) (open_conns st)
            (open_cursors st) (slept st).
Proof.
  destruct (snowflake_connect SF_USER SF_PASSWORD SF_ACCOUNT SF_WAREHOUSE
              SF_ROLE (world st)) as [[e|] w1] eqn:H1.
  { by rewrite (fetch_part_numbers_connect_fails _ _ _ H1). }
  destruct (cursor_execute QUERY w1) as [[e|] w2] eqn:H2.
  { by rewrite (fetch_part_numbers_execute_fails _ _ _ _ H1 H2). }
  destruct (cursor_fetchall w2) as [[e|rows] w3] eqn:H3.
  { by rewrite (fetch_part_numbers_fetchall_fails _ _ _ _ _ H1 H2 H3). }
  rewrite (fetch_part_numbers_returns _ _ _ _ _ H1 H2 H3).
  intros [= <- <-]. by exists rows, w1, w2.
Qed.

(** Every upload of a run satisfies what the resets and the uploads of the
    aggregator satisfy. *)
Lemma lambda_handler_writes (P : string * string -> Prop) st :
  Forall P resets ->
  (forall c, multi_errors c = [] -> Forall P (uploads c)) ->
  exists new,
    put_log (lambda_handler st).2 = put_log st ++ new /\
    bucket (lambda_handler st).2 = store_all new (bucket st) /\
    Forall P new.
Proof.
  intros Hresets Huploads.
  unfold lambda_handler, bind. rewrite clear_all_csvs_eq.
  destruct (put_all_spec resets st)
    as (done & Hpre & Hlog & Hb & _ & _ & Hret).
  destruct (put_all resets st) as [[[]|e] st1]; simpl in *.
  2: { exists done. repeat split; try done. by eapply Forall_prefix. }
  rewrite (Hret eq_refl) in Hlog, Hb.
  pose proof (fetch_part_numbers_store st1) as [Hb2 Hlog2].
  destruct (fetch_part_numbers st1) as [[parts|e] st2]; simpl in *.
  2: { exists resets. split; [congruence |]. split; [| done].
       by rewrite Hb2, Hb. }
  destruct (lookup_loop_run parts st2)
    as (c & st3 & Hrun & _ & _ & Hmulti & _ & Hb3 & Hl3 & _).
  pose proof (search_eq _ _ _ _ Hrun) as Hsearch.
  destruct (put_all_spec (uploads c) st3)
    as (done' & Hpre' & Hlog4 & Hb4 & _).
  exists (resets ++ done').
  assert (Hfinal :
    (let (o, st') := search_part_numbers_on_rockauto parts st2 in
     match o with
     | Return _ =>
         ret (mkSummary 200
                (json_dumps_summary "RockAuto scrape complete" (length parts))) st'
     | Raise e => (Raise e, st')
     end).2 = (put_all (uploads c) st3).2).
  { rewrite Hsearch. by destruct (put_all (uploads c) st3) as [[[]|e] st4]. }
  rewrite Hfinal, Hlog4, Hb4, Hl3, Hb3, Hlog2, Hb2, Hlog, Hb, store_all_app,
    app_assoc.
  repeat split. apply Forall_app. split; [exact Hresets |].
  eapply Forall_prefix; [exact Hpre' | by apply Huploads].
Qed.

End Refusals.

(** ** The handler, further *)

Lemma fold_left_append {A} (f : A -> string) (rows : list A) (buf : string) :
  fold_left (fun b r => b +:+ f r) rows buf =
  buf +:+ fold_left (fun b r => b +:+ f r) rows "".
Proof.
  revert buf. induction rows as [|r rows IH]; intros buf; simpl.
  - by rewrite append_nil_r.
  - rewrite (IH (buf +:+ f r)), (IH ("" +:+ f r)).
    by rewrite append_nil_l, append_assoc.
Qed.

Lemma store_all_same ups (m : gmap string string) :
  Forall (fun kb => m !! kb.1 = Some kb.2) ups -> store_all ups m = m.
Proof.
  unfold store_all. induction 1 as [|[k b] ups Hk _ IH]; [reflexivity |].
  simpl in *. by rewrite (insert_id _ _ _ Hk).
Qed.

(** X7: a run of the handler that returns gives status 200 and, as
    searched_count, the number of part records the warehouse reader
    returned; its uploads are the four resets followed by the uploads of
    the aggregator, all of them accepted, and the connections and cursors
    open after the run are those open before it. *)
Theorem lambda_handler_success
  {World : Type} {Ext : Externals World}
  (st st' : @State World) (s : Summary) :
  lambda_handler st = (Return s, st') ->
  exists st1 parts st2 c st3,
    clear_all_csvs st = (Return tt, st1) /\
    fetch_part_numbers st1 = (Return parts, st2) /\
    lookup_loop parts (mkCollected [] [] []) st2 = (Return c, st3) /\
    statusCode s = 200%Z /\
    body s = json_dumps_summary "RockAuto scrape complete" (length parts) /\
    length (raw_results c) = length parts /\
    put_log st' = put_log st ++ resets ++ uploads c /\
    open_conns st' = open_conns st /\
    open_cursors st' = open_cursors st.
Proof.
  intros Hrun.
  destruct (lambda_handler_returns_inv _ _ _ Hrun)
    as (st1 & parts & st2 & c & st3 & H1 & H2 & H3 & _ & Hsame & H4 & ->).
  exists st1, parts, st2, c, st3.
  pose proof H1 as H1'. rewrite clear_all_csvs_eq in H1'.
  destruct (put_all_spec resets st) as (d1 & _ & Hl1 & _ & Hc1 & Hu1 & Hr1).
  rewrite H1' in Hl1, Hc1, Hu1, Hr1. simpl in *.
  rewrite (Hr1 eq_refl) in Hl1.
  destruct (fetch_part_numbers_returns_inv _ _ _ H2)
    as (rows & w1 & w2 & _ & _ & _ & _ & Hst2).
  destruct (put_all_spec (uploads c) st3) as (d4 & _ & Hl4 & _ & Hc4 & Hu4 & Hr4).
  rewrite H4 in Hl4, Hc4, Hu4, Hr4. simpl in *.
  rewrite (Hr4 eq_refl) in Hl4.
  destruct Hsame as (_ & Hl3 & Hc3 & Hu3).
  destruct (lookup_loop_run parts st2) as (c' & st3' & H3' & Hmap & _).
  rewrite H3 in H3'. injection H3' as <- <-.
  apply (f_equal length) in Hmap. rewrite !length_map in Hmap.
  repeat split; try done.
  - rewrite Hl4, Hl3, Hst2. cbn [put_log]. by rewrite Hl1, <- app_assoc.
  - rewrite Hc4, Hc3, Hst2. cbn [open_conns]. exact Hc1.
  - rewrite Hu4, Hu3, Hst2. cbn [open_cursors]. exact Hu1.
Qed.

(** A full run in which both lookups find a price. *)
Lemma lambda_handler_success_witness :
  exists st1 parts st2 c st3,
    clear_all_csvs (Scripted.start Scripted.all_priced) = (Return tt, st1) /\
    fetch_part_numbers st1 = (Return parts, st2) /\
    lookup_loop parts (mkCollected [] [] []) st2 = (Return c, st3) /\
    statusCode (mkSummary 200
                  (json_dumps_summary "RockAuto scrape complete" 2)) = 200%Z /\
    body (mkSummary 200 (json_dumps_summary "RockAuto scrape complete" 2)) =
      json_dumps_summary "RockAuto scrape complete" (length parts) /\
    length (raw_results c) = length parts /\
    put_log (lambda_handler (Scripted.start Scripted.all_priced)).2 =
      put_log (Scripted.start Scripted.all_priced) ++ resets ++ uploads c /\
    open_conns (lambda_handler (Scripted.start Scripted.all_priced)).2 =
      open_conns (Scripted.start Scripted.all_priced) /\
    open_cursors (lambda_handler (Scripted.start Scripted.all_priced)).2 =
      open_cursors (Scripted.start Scripted.all_priced).
Proof.
  apply (lambda_handler_success (Scripted.start Scripted.all_priced)).
  vm_compute. reflexivity.
Defined.

(** X8: after a run of the handler that returns, the raw table holds the
    raw rows, the cleaned table the cleaned rows, the multi-result log its
    header row alone, and the not-found log its header row alone when
    every lookup found a price and else the header row and one line per
    not-found entry. *)
Theorem lambda_handler_success_store
  {World : Type} {Ext : Externals World}
  (st st' : @State World) (s : Summary) :
  lambda_handler st = (Return s, st') ->
  exists st1 parts st2 c st3,
    clear_all_csvs st = (Return tt, st1) /\
    fetch_part_numbers st1 = (Return parts, st2) /\
    lookup_loop parts (mkCollected [] [] []) st2 = (Return c, st3) /\
    bucket st' !! output_csv_file = Some (price_csv (raw_results c)) /\
    bucket st' !! cleaned_csv_file = Some (price_csv (clean (raw_results c))) /\
    bucket st' !! multi_result_log_csv = Some (csv_row error_fields) /\
    bucket st' !! not_found_log_csv =
      Some (if bool_decide (not_found c = []) then csv_row error_fields
            else error_csv (not_found_entries (not_found c))).
Proof.
  intros Hrun.
  destruct (lambda_handler_returns_inv _ _ _ Hrun)
    as (st1 & parts & st2 & c & st3 & H1 & H2 & H3 & Hmulti & Hsame & H4 & ->).
  exists st1, parts, st2, c, st3.
  destruct (clear_all_csvs_returns _ _ H1) as [_ Hb1].
  pose proof (fetch_part_numbers_store st1) as [Hb2 _].
  rewrite H2 in Hb2. simpl in Hb2.
  destruct (put_all_spec (uploads c) st3) as (d4 & _ & _ & Hb4 & _ & _ & Hr4).
  rewrite H4 in Hb4, Hr4. simpl in *. rewrite (Hr4 eq_refl) in Hb4.
  destruct Hsame as (Hb3 & _).
  pose proof (resets_lookup (bucket st)) as (Hm & Hn & _).
  assert (Hb : bucket st' = store_all (uploads c) (store_all resets (bucket st)))
    by (by rewrite Hb4, Hb3, Hb2, Hb1).
  assert (Hshape : uploads c =
      (if bool_decide (not_found c = []) then []
       else [(not_found_log_csv, error_csv (not_found_entries (not_found c)))]) ++
      [(output_csv_file, price_csv (raw_results c));
       (cleaned_csv_file, price_csv (clean (raw_results c)))])
    by (unfold uploads; by rewrite Hmulti).
  repeat split; try done.
  - rewrite Hb, Hshape, store_all_app. unfold store_all at 1.
    cbn [fold_left fst snd]. rewrite lookup_insert_ne by done.
    apply lookup_insert_eq.
  - rewrite Hb, Hshape, store_all_app. unfold store_all at 1.
    cbn [fold_left fst snd]. apply lookup_insert_eq.
  - rewrite Hb, store_all_lookup_ne by (by apply uploads_no_multi). exact Hm.
  - rewrite Hb. case_bool_decide as Hnf.
    + rewrite store_all_lookup_ne by (by apply uploads_no_not_found). exact Hn.
    + rewrite Hshape. rewrite ?bool_decide_eq_false_2 by done.
      unfold store_all at 1. cbn [app fold_left fst snd].
      rewrite !lookup_insert_ne by done. apply lookup_insert_eq.
Qed.

(** A full run in which the second lookup times out. *)
Lemma lambda_handler_success_store_witness :
  exists st1 parts st2 c st3,
    clear_all_csvs (Scripted.start Scripted.half_priced) = (Return tt, st1) /\
    fetch_part_numbers st1 = (Return parts, st2) /\
    lookup_loop parts (mkCollected [] [] []) st2 = (Return c, st3) /\
    bucket (lambda_handler (Scripted.start Scripted.half_priced)).2
      !! output_csv_file = Some (price_csv (raw_results c)) /\
    bucket (lambda_handler (Scripted.start Scripted.half_priced)).2
      !! cleaned_csv_file = Some (price_csv (clean (raw_results c))) /\
    bucket (lambda_handler (Scripted.start Scripted.half_priced)).2
      !! multi_result_log_csv = Some (csv_row error_fields) /\
    bucket (lambda_handler (Scripted.start Scripted.half_priced)).2
      !! not_found_log_csv =
      Some (if bool_decide (not_found c = []) then csv_row error_fields
            else error_csv (not_found_entries (not_found c))).
Proof.
  apply (lambda_handler_success_store (Scripted.start Scripted.half_priced) _
           (mkSummary 200 (json_dumps_summary "RockAuto scrape complete" 2))).
  vm_compute. reflexivity.
Defined.

(** X9: the exit paths of the warehouse reader: it closes what it opened
    when it returns; when the connection is refused nothing was opened; on
    the other paths that raise, on the query or on fetching the rows, the
    connection and the cursor stay open. *)
Theorem fetch_part_numbers_exit_paths
  {World : Type} {Ext : Externals World} (st : @State World) :
  match (fetch_part_numbers st).1 with
  | Return _ =>
      open_conns (fetch_part_numbers st).2 = open_conns st /\
      open_cursors (fetch_part_numbers st).2 = open_cursors st
  | Raise e =>
      ((snowflake_connect SF_USER SF_PASSWORD SF_ACCOUNT SF_WAREHOUSE SF_ROLE
          (world st)).1 = Some e /\
       open_conns (fetch_part_numbers st).2 = open_conns st) \/
      ((snowflake_connect SF_USER SF_PASSWORD SF_ACCOUNT SF_WAREHOUSE SF_ROLE
          (world st)).1 = None /\
       open_conns (fetch_part_numbers st).2 = S (open_conns st) /\
       open_cursors (fetch_part_numbers st).2 = S (open_cursors st))
  end.
Proof.
  destruct (snowflake_connect SF_USER SF_PASSWORD SF_ACCOUNT SF_WAREHOUSE
              SF_ROLE (world st)) as [[e|] w1] eqn:H1.
  - rewrite (fetch_part_numbers_connect_fails _ _ _ H1). by left.
  - destruct (cursor_execute QUERY w1) as [[e|] w2] eqn:H2.
    + rewrite (fetch_part_numbers_execute_fails _ _ _ _ H1 H2). by right.
    + destruct (cursor_fetchall w2) as [[e|rows] w3] eqn:H3.
      * rewrite (fetch_part_numbers_fetchall_fails _ _ _ _ _ H1 H2 H3). by right.
      * by rewrite (fetch_part_numbers_returns _ _ _ _ _ H1 H2 H3).
Qed.


Lemma price_csv_header rows :
  exists rest, price_csv rows = csv_row price_fields +:+ rest.
Proof. unfold price_csv. rewrite fold_left_append. by eexists. Qed.

Lemma error_csv_header rows :
  exists rest, error_csv rows = csv_row error_fields +:+ rest.
Proof. unfold error_csv. rewrite fold_left_append. by eexists. Qed.

(** X10: whatever the outside world does, and whether the run returns or
    raises, every object the handler uploads goes under one of its four
    keys and begins with the header row of that key; every other object of
    the bucket is left as it was. *)
Theorem lambda_handler_writes_four_keys_with_headers
  {World : Type} {Ext : Externals World} (st : @State World) :
  exists new,
    put_log (lambda_handler st).2 = put_log st ++ new /\
    Forall (fun kb => In kb.1 four_keys /\
                      exists rest, kb.2 = header_of kb.1 +:+ rest) new /\
    (forall k, ~ In k four_keys ->
       bucket (lambda_handler st).2 !! k = bucket st !! k).
Proof.
  destruct (lambda_handler_writes
              (fun kb => In kb.1 four_keys /\
                         exists rest, kb.2 = header_of kb.1 +:+ rest) st)
    as (new & Hlog & Hbucket & Hnew).
  - repeat constructor; simpl; try tauto; by exists "".
  - intros c Hmulti. unfold uploads. rewrite Hmulti. simpl.
    destruct (bool_decide (not_found c = [])); repeat constructor;
      simpl; try tauto;
      try apply price_csv_header; apply error_csv_header.
  - exists new. split; [exact Hlog |]. split; [exact Hnew |].
    intros k Hk. rewrite Hbucket. apply store_all_lookup_ne.
    eapply Forall_impl; [exact Hnew |]. intros kb [Hin _] Heq.
    apply Hk. by rewrite <- Heq.
Qed.



(** X12: when the warehouse returns no rows the aggregator has nothing to
    look up: whether or not the store accepts the two tables, each of the
    four keys holds its header row alone after the run, and a run that
    returns reports a searched_count of 0. *)
Theorem lambda_handler_on_empty_warehouse
  {World : Type} {Ext : Externals World} (st st1 st2 : @State World) :
  clear_all_csvs st = (Return tt, st1) ->
  fetch_part_numbers st1 = (Return [], st2) ->
  (forall k, In k four_keys ->
     bucket (lambda_handler st).2 !! k = Some (header_of k)) /\
  (forall s, (lambda_handler st).1 = Return s ->
     s = mkSummary 200 (json_dumps_summary "RockAuto scrape complete" 0)) /\
  slept (lambda_handler st).2 = slept st2.
Proof.
  intros H1 H2.
  destruct (clear_all_csvs_returns _ _ H1) as [_ Hb1].
  pose proof (fetch_part_numbers_store st1) as [Hb2 _].
  rewrite H2 in Hb2. simpl in Hb2.
  pose proof (resets_lookup (bucket st)) as (Hm & Hn & Ho & Hc).
  assert (Hsearch : search_part_numbers_on_rockauto [] st2 =
            put_all [(output_csv_file, csv_row price_fields);
                     (cleaned_csv_file, csv_row price_fields)] st2)
    by (by rewrite (search_eq [] st2 (mkCollected [] [] []) st2 eq_refl)).
  destruct (put_all_spec [(output_csv_file, csv_row price_fields);
                          (cleaned_csv_file, csv_row price_fields)] st2)
    as (done & Hpre & _ & Hb3 & _).
  assert (Hslept : slept (put_all [(output_csv_file, csv_row price_fields);
                     (cleaned_csv_file, csv_row price_fields)] st2).2 = slept st2).
  { cbn [put_all fst snd]. unfold bind, put_object, ret.
    destruct (s3_put_object BUCKET_NAME output_csv_file _ _) as [[e|] w]; [done |].
    cbn [world].
    by destruct (s3_put_object BUCKET_NAME cleaned_csv_file _ _) as [[e|] w']. }
  assert (Hfinal : (lambda_handler st).2 =
            (put_all [(output_csv_file, csv_row price_fields);
                      (cleaned_csv_file, csv_row price_fields)] st2).2).
  { unfold lambda_handler, bind. rewrite H1, H2, Hsearch.
    by destruct (put_all _ st2) as [[[]|e] st4]. }
  assert (Hbucket : bucket (lambda_handler st).2 = store_all resets (bucket st)).
  { rewrite Hfinal, Hb3, Hb2, Hb1. apply store_all_same.
    eapply Forall_prefix; [exact Hpre |]. by repeat constructor. }
  split; [| split].
  - intros k Hk. rewrite Hbucket.
    destruct Hk as [<- | [<- | [<- | [<- | []]]]]; assumption.
  - unfold lambda_handler, bind. rewrite H1, H2.
    destruct (search_part_numbers_on_rockauto [] st2) as [[[]|e] st4];
      [| discriminate].
    by intros s [= <-].
  - by rewrite Hfinal.
Qed.

(** The warehouse answers with no rows. *)
Lemma lambda_handler_on_empty_warehouse_witness :
  (forall k, In k four_keys ->
     bucket (lambda_handler (Scripted.start Scripted.flaky)).2 !! k =
       Some (header_of k)) /\
  (forall s, (lambda_handler (Scripted.start Scripted.flaky)).1 = Return s ->
     s = mkSummary 200 (json_dumps_summary "RockAuto scrape complete" 0)) /\
  slept (lambda_handler (Scripted.start Scripted.flaky)).2 =
    slept (fetch_part_numbers
             (clear_all_csvs (Scripted.start Scripted.flaky)).2).2.
Proof.
  apply (lambda_handler_on_empty_warehouse (Scripted.start Scripted.flaky)
           (clear_all_csvs (Scripted.start Scripted.flaky)).2).
  - vm_compute. reflexivity.
  - vm_compute. reflexivity.
Defined.

(** X13: when the warehouse reader returns, its part records are the rows
    the cursor fetched, one per row and in their order, first column as
    vendor part number and second as part number; the bucket and the
    upload log are untouched and no connection or cursor is left open. *)
Theorem fetch_part_numbers_returns_the_rows
  {World : Type} {Ext : Externals World}
  (st st' : @State World) (parts : list PartRecord) :
  fetch_part_numbers st = (Return parts, st') ->
  exists rows w,
    cursor_fetchall w = (inr rows, world st') /\
    map (fun p => (vendor_part_number p, part_number p)) parts = rows /\
    length parts = length rows /\
    bucket st' = bucket st /\ put_log st' = put_log st /\
    open_conns st' = open_conns st /\ open_cursors st' = open_cursors st /\
    slept st' = slept st.
Proof.
  intros Hrun.
  destruct (fetch_part_numbers_returns_inv _ _ _ Hrun)
    as (rows & w1 & w2 & _ & _ & Hfetch & -> & Hst).
  exists rows, w2. split; [exact Hfetch |].
  rewrite map_map, length_map. split.
  - rewrite <- (map_id rows) at 2. apply map_ext. by intros [a b].
  - rewrite Hst. by repeat split.
Qed.

(** The warehouse answers with two rows. *)
Lemma fetch_part_numbers_returns_the_rows_witness :
  exists rows w,
    cursor_fetchall w =
      (inr rows,
       world (fetch_part_numbers (Scripted.start Scripted.all_priced)).2) /\
    map (fun p => (vendor_part_number p, part_number p))
        [mkPart "A" "P1"; mkPart "B" "P2"] = rows /\
    length [mkPart "A" "P1"; mkPart "B" "P2"] = length rows /\
    bucket (fetch_part_numbers (Scripted.start Scripted.all_priced)).2 =
      bucket (Scripted.start Scripted.all_priced) /\
    put_log (fetch_part_numbers (Scripted.start Scripted.all_priced)).2 =
      put_log (Scripted.start Scripted.all_priced) /\
    open_conns (fetch_part_numbers (Scripted.start Scripted.all_priced)).2 =
      open_conns (Scripted.start Scripted.all_priced) /\
    open_cursors (fetch_part_numbers (Scripted.start Scripted.all_priced)).2 =
      open_cursors (Scripted.start Scripted.all_priced) /\
    slept (fetch_part_numbers (Scripted.start Scripted.all_priced)).2 =
      slept (Scripted.start Scripted.all_priced).
Proof.
  apply (fetch_part_numbers_returns_the_rows (Scripted.start Scripted.all_priced)).
  vm_compute. reflexivity.
Defined.

(** X14: a price comes only from a page: when [fetch_price] returns a
    price, the request was answered, with a status outside 400 to 599,
    the selector found an element on the parsed page, and the price is
    what the search found in the text of that element, a decimal number
    and never the sentinel. *)
Theorem fetch_price_price_comes_from_page
  {World : Type} {Ext : Externals World}
  (vpn p : string) (st : @State World) :
  (fetch_price vpn st).1 = Return (Some p) ->
  exists resp el,
    (requests_get (search_url vpn) HEADERS 10 (world st)).1 = inr resp /\
    ((status_code resp < 400)%Z \/ (600 <= status_code resp)%Z) /\
    select_one (BeautifulSoup (text resp)) = Some el /\
    re_search_price (get_text el) = Some p /\
    decimal_string p /\ p <> NOT_FOUND.
Proof.
  rewrite fetch_price_eq. cbn [fst]. intros [= Hp].
  pose proof (price_of_answer_decimal _ _ Hp) as Hdec.
  unfold price_of_answer, failed in Hp.
  destruct ((requests_get (search_url vpn) HEADERS 10 (world st)).1)
    as [e|resp]; [discriminate |].
  destruct ((400 <=? status_code resp)%Z && (status_code resp <? 600)%Z)
    eqn:Hstatus; [discriminate |].
  destruct (select_one (BeautifulSoup (text resp))) as [el|] eqn:Hsel;
    [| discriminate].
  exists resp, el. split; [reflexivity |]. split; [| split; [exact Hsel |]].
  - apply andb_false_iff in Hstatus. lia.
  - split; [exact Hp |]. split; [exact Hdec |].
    intros ->. by apply sentinel_not_decimal.
Qed.

(** The site answers with the priced page. *)
Lemma fetch_price_price_comes_from_page_witness :
  exists resp el,
    (requests_get (search_url "A") HEADERS 10
       (world (Scripted.start Scripted.all_priced))).1 = inr resp /\
    ((status_code resp < 400)%Z \/ (600 <= status_code resp)%Z) /\
    select_one (BeautifulSoup (text resp)) = Some el /\
    re_search_price (get_text el) = Some "42.95" /\
    decimal_string "42.95" /\ "42.95" <> NOT_FOUND.
Proof.
  apply (fetch_price_price_comes_from_page "A" "42.95"
           (Scripted.start Scripted.all_priced)).
  vm_compute. reflexivity.
Defined.

Lemma head_filter_In {A} (f : A -> bool) (l : list A) (x : A) :
  head (List.filter f l) = Some x -> In x l /\ f x = true.
Proof.
  intros H. apply filter_In.
  destruct (List.filter f l) as [|y ys]; [discriminate |].
  injection H as ->. by left.
Qed.

(** X15: what the selector returns is always an element of the page named
    [span] that lies inside an element matching [span[id^='dprice']]; the
    element that carries the id is itself returned only when it lies in
    another such element. *)
Theorem select_one_returns_a_nested_span (soup : list node) (el : node) :
  select_one soup = Some el ->
  In (el, true) (document_order price_span soup) /\
  exists attrs contents, el = Tag "span" attrs contents.
Proof.
  unfold select_one. rewrite select_forest_document_order.
  fold (document_order price_span soup).
  destruct (head (List.filter _ (document_order price_span soup)))
    as [[el' b]|] eqn:Hhead; [| discriminate].
  intros [= ->]. apply head_filter_In in Hhead as [Hin Hf]. simpl in Hf.
  apply andb_true_iff in Hf as [-> Hspan]. split; [exact Hin |].
  destruct el as [s | name attrs contents]; [discriminate |].
  simpl in Hspan. rewrite andb_true_r in Hspan.
  apply bool_decide_eq_true in Hspan. subst name. by exists attrs, contents.
Qed.

(** The page that holds the fragment inside [html], [body] and [div]. *)
Lemma select_one_returns_a_nested_span_witness :
  In (Tag "span" empty [NavigableString "$42.95 each"], true)
     (document_order price_span Scripted.soup_nested) /\
  exists attrs contents,
    Tag "span" empty [NavigableString "$42.95 each"] = Tag "span" attrs contents.
Proof.
  apply (select_one_returns_a_nested_span Scripted.soup_nested).
  vm_compute. reflexivity.
Defined.

(** X16: the selector finds nothing exactly when no [span] of the page
    lies inside an element matching [span[id^='dprice']]; a price that
    sits directly in the element with the id is not found. *)
Theorem select_one_none_iff (soup : list node) :
  select_one soup = None <->
  Forall (fun e => e.2 && matches any_span e.1 = false)
         (document_order price_span soup).
Proof.
  unfold select_one. rewrite select_forest_document_order.
  fold (document_order price_span soup).
  generalize (document_order price_span soup). intros l.
  induction l as [|e l IH]; simpl.
  - split; [constructor | reflexivity].
  - destruct (e.2 && matches any_span e.1) eqn:He; simpl.
    + split; [discriminate |]. intros H. inversion H; congruence.
    + rewrite IH. split; [by constructor | by inversion 1].
Qed.


(** X18: the lookup loop works through its list piece by piece: running
    it on two lists put together is running it on the first and then, from
    the lists and the world that leaves, on the second. *)
Theorem lookup_loop_app
  {World : Type} {Ext : Externals World}
  (parts1 parts2 : list PartRecord) (acc : Collected) (st : @State World) :
  lookup_loop (parts1 ++ parts2) acc st =
  bind (lookup_loop parts1 acc) (fun c => lookup_loop parts2 c) st.
Proof.
  revert acc st. induction parts1 as [|rec rest IH]; intros acc st.
  - reflexivity.
  - rewrite <- app_comm_cons, lookup_loop_cons. cbv zeta. rewrite IH.
    unfold bind at 2. by rewrite lookup_loop_cons.
Qed.

Lemma writerows_rejects fieldnames (rows : list (list (string * string))) :
  Exists (fun r => Exists (fun kv => ~ In kv.1 fieldnames) r) rows ->
  forall buf,
    writerows fieldnames rows buf =
    inl (ValueError "dict contains fields not in fieldnames").
Proof.
  induction 1 as [r rows Hbad | r rows _ IH]; intros buf; cbn [writerows].
  - unfold dict_to_list.
    destruct (forallb _ r) eqn:Hall; [exfalso | reflexivity].
    apply Exists_exists in Hbad as (kv & Hkv & Hout).
    apply list_elem_of_In in Hkv.
    rewrite forallb_forall in Hall. specialize (Hall kv Hkv).
    apply bool_decide_eq_true in Hall. by apply Hout, list_elem_of_In.
  - unfold dict_to_list at 1. destruct (forallb _ r); [apply IH | reflexivity].
Qed.

(** X19: a row with a key that is not among the field names stops the
    save before anything is uploaded: [save_csv_to_s3] raises the
    [ValueError] of the writer and the bucket, the log and the world are
    as they were. *)
Theorem save_csv_to_s3_rejects_unknown_key
  {World : Type} {Ext : Externals World} {A : Type} {D : Dict A}
  (rows : list A) (key : string) (fieldnames : list string)
  (st : @State World) :
  Exists (fun r => Exists (fun kv => ~ In kv.1 fieldnames) (items r)) rows ->
  save_csv_to_s3 rows key fieldnames st =
    (Raise (ValueError "dict contains fields not in fieldnames"), st).
Proof.
  intros Hbad. unfold save_csv_to_s3.
  rewrite writerows_rejects; [reflexivity |].
  by apply Exists_map in Hbad.
Qed.

(** Price rows saved under the field names of an error log. *)
Lemma save_csv_to_s3_rejects_unknown_key_witness :
  save_csv_to_s3 Scripted.three_rows not_found_log_csv error_fields
    (Scripted.start Scripted.all_priced) =
  (Raise (ValueError "dict contains fields not in fieldnames"),
   Scripted.start Scripted.all_priced).
Proof.
  apply save_csv_to_s3_rejects_unknown_key.
  apply Exists_cons_hd, Exists_cons_hd. simpl. intros [H | [H | []]];
    discriminate H.
Defined.
